(** * whatsapp-gateway: the session lifecycle and the REST handlers of server.js

    A shallow embedding of [src/server.js].  The module-level variables
    [client], [qrCodeData], [isReady] and [isInitializing] become a record;
    every Express handler and every listener registered on the protocol
    client becomes a function on the state of the process.  An [async]
    handler is cut at each [await]: the part before it runs to completion,
    issues the call on the external client and parks its continuation, and
    the environment later resumes that continuation with the settled promise.
    Other requests, events and timers may run in between, as on the Node
    event loop. *)

From Stdlib Require Import ZArith Ascii String.
From stdpp Require Import base option list gmap strings.

Local Open Scope nat_scope.

(** ** JavaScript values that reach the handlers *)

(** A field of [req.body] after [bodyParser.json()] / [urlencoded]: absent
    ([undefined]), [null], a boolean, a number, a string, or an object or
    array.  Numbers are kept as integers: the handlers only test them for
    truthiness and call string methods on them. *)
Inductive jsval : Type :=
  | JUndefined
  | JNull
  | JBool (b : bool)
  | JNum (n : Z)
  | JStr (s : string)
  | JObj.

(** [!v] is [negb (truthy v)]. *)
Definition truthy (v : jsval) : bool :=
  match v with
  | JUndefined | JNull => false
  | JBool b => b
  | JNum n => negb (n =? 0)%Z
  | JStr s => negb (String.eqb s EmptyString)
  | JObj => true
  end.

(** [a || b] *)
Definition js_or (a b : jsval) : jsval := if truthy a then a else b.

(** ** Phone formatting (server.js 246-257 and 309-320) *)

(** The character class [0-9]. *)
Definition is_digit (a : ascii) : bool :=
  (48 <=? nat_of_ascii a) && (nat_of_ascii a <=? 57).

(** [s.replace(/[^0-9]/g, '')].  The string is a sequence of bytes here and
    of UTF-16 units in Node; the ten digits are single units in both and
    every unit of any other character is outside the class, so the result
    is the same. *)
Fixpoint strip_non_digits (s : string) : string :=
  match s with
  | EmptyString => EmptyString
  | String a r =>
      if is_digit a then String a (strip_non_digits r) else strip_non_digits r
  end.

(** [s.startsWith(p)] *)
Definition startsWith (s p : string) : bool := String.prefix p s.

(** [s.substring(1)] *)
Definition substring1 (s : string) : string :=
  match s with
  | EmptyString => EmptyString
  | String _ r => r
  end.

(** The three statements that both send handlers run on [phone]; the text
    is the same in the two handlers. *)
Definition formatPhone (phone : string) : string :=
  let formattedPhone := strip_non_digits phone in
  let formattedPhone :=
    if startsWith formattedPhone "0"
    then "62" +:+ substring1 formattedPhone
    else formattedPhone in
  let formattedPhone :=
    if negb (startsWith formattedPhone "62")
    then "62" +:+ formattedPhone
    else formattedPhone in
  formattedPhone.

(** [const chatId = formattedPhone + '@c.us'] *)
Definition chatIdOf (formattedPhone : string) : string :=
  formattedPhone +:+ "@c.us".

(** The normalization as the specification words it: strip the non-digits;
    a leading trunk digit is replaced by the country code, else the country
    code is prepended unless already there; then the suffix. *)
Definition normalize_digits (raw : string) : string :=
  let digits := strip_non_digits raw in
  if String.prefix "0" digits then "62" +:+ substring1 digits
  else if String.prefix "62" digits then digits
  else "62" +:+ digits.

Definition normalize (raw : string) : string :=
  normalize_digits raw +:+ "@c.us".

(** [s.endsWith(p)]: some tail of [s] is [p]. *)
Fixpoint endsWith (s p : string) : bool :=
  String.eqb s p ||
  match s with
  | EmptyString => false
  | String _ r => endsWith r p
  end.

(** ** The state of the process *)

(** The value of the variable [client]: [undefined] until the first
    assignment ([let client;]), [null] after a restart or a logout, or the
    object made by the [c]-th evaluation of [new Client(...)]. *)
Inductive cref : Type :=
  | CUndefined
  | CNull
  | CObj (c : nat).

(** [if (client)], [!client] *)
Definition cref_truthy (r : cref) : bool :=
  match r with CObj _ => true | _ => false end.

(** [client !== null]: strict, so [undefined] passes. *)
Definition cref_not_null (r : cref) : bool :=
  match r with CNull => false | _ => true end.

(** The four module-level variables (server.js 10-13). *)
Record globals : Type := Globals {
  client : cref;
  qrCodeData : option string;
  isReady : bool;
  isInitializing : bool
}.

(** What the message argument of [client.sendMessage] is: the [message]
    field as received, or a media object loaded by [MessageMedia.fromUrl]. *)
Inductive content : Type :=
  | Text (message : jsval)
  | Media (m : nat).

(** Calls that leave the process, in the order they are made. *)
Inductive extcall : Type :=
  | NewClient (c : nat)
  | Initialize (c : nat)
  | Destroy (c : nat)
  | Logout (c : nat)
  | IsRegisteredUser (c : nat) (chatId : string)
  | SendMessage (c : nat) (chatId : string) (body : content)
      (caption : option jsval)
  | FromUrl (mediaUrl filename : jsval)
  | QrTerminal (qr : string)
  | WebhookPost (from body : string) (timestamp : Z)
  | SetTimeout (ms : nat).

(** The [data] part of a JSON envelope. *)
Inductive payload : Type :=
  | NoData
  | QrData (qr : option string)
  | StatusData (ready initializing hasQR hasClient : bool)
  | SentData (phone messageId : string).

(** [res.status(code).json({status, message, ...})]; [res.json] alone
    answers 200. *)
Record response : Type := Response {
  code : nat;
  status : string;
  message : string;
  data : payload
}.

(** The point at which a suspended [async] function waits, with the local
    variables it still needs. *)
Inductive task : Type :=
  | RestartAwaitDestroy
  | SendMessageAwaitRegistered (formattedPhone chatId : string) (message : jsval)
  | SendMessageAwaitSend (formattedPhone : string)
  | SendMediaAwaitFetch (formattedPhone chatId : string) (caption : jsval)
  | SendMediaAwaitSend (formattedPhone : string)
  | LogoutAwaitLogout
  | LogoutAwaitDestroy
  | WebhookAwait.

(** An Error object as the handlers see it: one that the runtime throws at
    a property read or a call ([TypeError]), or the reason of a rejected
    promise.  The handlers read only its [message]. *)
Inductive jserror : Type :=
  | TypeError (message : string)
  | Rejection (message : string).

(** [error.message] *)
Definition error_message (e : jserror) : string :=
  match e with
  | TypeError m | Rejection m => m
  end.

(** The whole process: the globals, the clients constructed so far (the next
    one gets number [nclients]), the pending [setTimeout] callbacks of
    restart, the suspended handlers by activation number, the number of the
    next activation, and what the process has emitted: responses (tagged with
    the activation that sent them), external calls, console lines, and the
    calls of [console.error] that are handed an Error object itself: those
    are kept as label and error, since what the console prints for the
    object (its name, message and stack) is not text the program makes. *)
Record world : Type := World {
  glob : globals;
  nclients : nat;
  timers : nat;
  parked : gmap nat task;
  fresh : nat;
  out : list (nat * response);
  calls : list extcall;
  logs : list string;
  errors : list (string * jserror)
}.

(** *** Field updates *)

Definition set_glob (g : globals) (w : world) : world :=
  World g (nclients w) (timers w) (parked w) (fresh w) (out w) (calls w) (logs w)
        (errors w).

Definition set_client (r : cref) (w : world) : world :=
  set_glob (Globals r (qrCodeData (glob w)) (isReady (glob w))
              (isInitializing (glob w))) w.

Definition set_qrCodeData (q : option string) (w : world) : world :=
  set_glob (Globals (client (glob w)) q (isReady (glob w))
              (isInitializing (glob w))) w.

Definition set_isReady (b : bool) (w : world) : world :=
  set_glob (Globals (client (glob w)) (qrCodeData (glob w)) b
              (isInitializing (glob w))) w.

Definition set_isInitializing (b : bool) (w : world) : world :=
  set_glob (Globals (client (glob w)) (qrCodeData (glob w))
              (isReady (glob w)) b) w.

Definition set_nclients (n : nat) (w : world) : world :=
  World (glob w) n (timers w) (parked w) (fresh w) (out w) (calls w) (logs w)
        (errors w).

Definition set_timers (n : nat) (w : world) : world :=
  World (glob w) (nclients w) n (parked w) (fresh w) (out w) (calls w) (logs w)
        (errors w).

Definition set_parked (p : gmap nat task) (w : world) : world :=
  World (glob w) (nclients w) (timers w) p (fresh w) (out w) (calls w) (logs w)
        (errors w).

Definition set_fresh (n : nat) (w : world) : world :=
  World (glob w) (nclients w) (timers w) (parked w) n (out w) (calls w) (logs w)
        (errors w).

(** [console.log] / [console.error]: one line per call. *)
Definition log (line : string) (w : world) : world :=
  World (glob w) (nclients w) (timers w) (parked w) (fresh w) (out w)
        (calls w) (logs w ++ [line]) (errors w).

Definition call (e : extcall) (w : world) : world :=
  World (glob w) (nclients w) (timers w) (parked w) (fresh w) (out w)
        (calls w ++ [e]) (logs w) (errors w).

(** The handler of activation [id] answers and is finished. *)
Definition respond (id : nat) (r : response) (w : world) : world :=
  World (glob w) (nclients w) (timers w) (parked w) (fresh w)
        (out w ++ [(id, r)]) (calls w) (logs w) (errors w).

(** [console.error(label, error)] with [error] an Error object. *)
Definition console_error (label : string) (e : jserror) (w : world) : world :=
  World (glob w) (nclients w) (timers w) (parked w) (fresh w) (out w)
        (calls w) (logs w) (errors w ++ [(label, e)]).

(** The handler of activation [id] reaches an [await]. *)
Definition park (id : nat) (t : task) (w : world) : world :=
  set_parked (<[id := t]> (parked w)) w.

(** [setTimeout(() => { initializeClient(); }, ms)] *)
Definition schedule (ms : nat) (w : world) : world :=
  set_timers (S (timers w)) (call (SetTimeout ms) w).

(** [res.json({status, message})] *)
Definition json (st msg : string) : response := Response 200 st msg NoData.

Notation "w |> f" := (f w) (at level 45, left associativity, only parsing).

(** ** initializeClient (server.js 16-110) *)

(** The two guards, then the three flag writes, [new Client], the listener
    registrations (they are the function [on_event] below) and
    [client.initialize()], whose promise is not awaited. *)
Definition initializeClient (w : world) : world :=
  if isInitializing (glob w) then
    w |> log "Client is already initializing..."
  else if cref_truthy (client (glob w)) && isReady (glob w) then
    w |> log "Client is already initialized and ready"
  else
    let c := nclients w in
    w |> set_isInitializing true
      |> set_qrCodeData None
      |> set_isReady false
      |> call (NewClient c)
      |> set_nclients (S c)
      |> set_client (CObj c)
      |> call (Initialize c).

(** ** The listeners (server.js 54-107) *)

Inductive event : Type :=
  | EvQr (qr : string)
  | EvReady
  | EvAuthenticated
  | EvAuthFailure (msg : string)
  | EvDisconnected (reason : string)
  | EvMessage (from body : string) (timestamp : Z).

(** The listeners close over the module-level variables, not over the
    client they are registered on, so the emitting client plays no part.
    The [message] listener is [async]: activation [id] waits for the
    webhook post. *)
Definition on_event (e : event) (id : nat) (w : world) : world :=
  match e with
  | EvQr qr =>
      w |> log "QR Code received, scan please!"
        |> call (QrTerminal qr)
        |> set_qrCodeData (Some qr)
        |> set_isInitializing false
  | EvReady =>
      w |> log "WhatsApp Client is ready!"
        |> set_isReady true
        |> set_qrCodeData None
        |> set_isInitializing false
  | EvAuthenticated =>
      w |> log "WhatsApp authenticated!"
        |> set_qrCodeData None
  | EvAuthFailure msg =>
      w |> log ("Authentication failure: " +:+ msg)
        |> set_isReady false
        |> set_qrCodeData None
        |> set_isInitializing false
  | EvDisconnected reason =>
      w |> log ("WhatsApp disconnected: " +:+ reason)
        |> set_isReady false
        |> set_qrCodeData None
        |> set_isInitializing false
  | EvMessage from body timestamp =>
      w |> log ("Message received: " +:+ body)
        |> call (WebhookPost from body timestamp)
        |> park id WebhookAwait
  end.

(** ** The routes *)

(** A request, with the fields that the handler destructures from
    [req.body] (an object once body-parser has run; a field that was not
    sent is [undefined]). *)
Inductive request : Type :=
  | PostStart
  | PostRestart
  | GetQr
  | GetStatus
  | PostSendMessage (phone message : jsval)
  | PostSendMedia (phone mediaUrl caption filename : jsval)
  | PostLogout.

(** What a promise of the external client settles to.  The contract of the
    client fixes the shape of fulfilled values: a boolean for
    [isRegisteredUser], a message whose [id._serialized] is a string for
    [sendMessage], a media object for [fromUrl]; [destroy], [logout] and the
    webhook post fulfil with a value nobody reads. *)
Inductive extval : Type :=
  | VUndefined
  | VBool (b : bool)
  | VMessage (serialized : string)
  | VMedia (m : nat).

Inductive outcome : Type :=
  | Resolved (v : extval)
  | Rejected (errorMessage : string).

Definition extval_truthy (v : extval) : bool :=
  match v with
  | VUndefined => false
  | VBool b => b
  | VMessage _ | VMedia _ => true
  end.

(** [qrCodeData] in a condition: [null] and the empty string are falsy. *)
Definition qr_truthy (q : option string) : bool :=
  match q with
  | None => false
  | Some s => negb (String.eqb s EmptyString)
  end.

(** [qrCodeData !== null] *)
Definition qr_not_null (q : option string) : bool :=
  match q with None => false | Some _ => true end.

(** The message of the [TypeError] that V8 (Node 20 in the Dockerfile) raises
    for [client.prop] when [client] is [null] or [undefined]. *)
Definition typeError_read (r : cref) (prop : string) : string :=
  "Cannot read properties of "
  +:+ (match r with CUndefined => "undefined" | _ => "null" end)
  +:+ " (reading '" +:+ prop +:+ "')".

(** *** POST /api/start (server.js 115-142) *)
Definition api_start (id : nat) (w : world) : world :=
  if isReady (glob w) then
    w |> respond id (json "info" "WhatsApp client already connected")
  else if isInitializing (glob w) then
    w |> respond id (json "info" "WhatsApp client is initializing...")
  else if negb (cref_truthy (client (glob w))) then
    w |> initializeClient
      |> respond id (json "success"
           "WhatsApp client started. Please check /api/qr for QR code")
  else
    w |> respond id (json "info" "WhatsApp client already exists").

(** *** POST /api/restart (server.js 145-176) *)

(** From [isReady = false] to [res.json]. *)
Definition restart_finish (id : nat) (w : world) : world :=
  w |> set_isReady false
    |> set_qrCodeData None
    |> set_isInitializing false
    |> schedule 1000
    |> respond id (json "success"
         "WhatsApp client restarting. Check /api/qr in a few seconds").

Definition api_restart (id : nat) (w : world) : world :=
  match client (glob w) with
  | CObj c => w |> call (Destroy c) |> park id RestartAwaitDestroy
  | _ => restart_finish id w
  end.

(** After [await client.destroy()]: the inner [catch] logs a rejection, and
    either way [client = null] and the rest follow. *)
Definition restart_resume (id : nat) (o : outcome) (w : world) : world :=
  (match o with
   | Resolved _ => w
   | Rejected m => w |> log ("Error destroying client: " +:+ m)
   end)
  |> set_client CNull
  |> restart_finish id.

(** *** GET /api/qr (server.js 179-209) *)
Definition api_qr (id : nat) (w : world) : world :=
  let g := glob w in
  if isReady g then
    w |> respond id (Response 200 "ready" "WhatsApp already connected"
                       (QrData None))
  else if isInitializing g && negb (qr_truthy (qrCodeData g)) then
    w |> respond id (Response 200 "initializing"
                       "Client is initializing, please wait..." (QrData None))
  else if qr_truthy (qrCodeData g) then
    w |> respond id (Response 200 "success" "Scan QR code with WhatsApp"
                       (QrData (qrCodeData g)))
  else
    w |> respond id (Response 200 "waiting"
                       "Waiting for QR code. Try /api/start or /api/restart"
                       (QrData None)).

(** *** GET /api/status (server.js 212-225) *)
Definition statusResponse (g : globals) : response :=
  Response 200
    (if isReady g then "ready"
     else if isInitializing g then "initializing" else "not_ready")
    (if isReady g then "WhatsApp is connected"
     else if isInitializing g then "WhatsApp is initializing..."
     else "WhatsApp is not connected")
    (StatusData (isReady g) (isInitializing g)
       (qr_not_null (qrCodeData g)) (cref_not_null (client g))).

Definition api_status (id : nat) (w : world) : world :=
  w |> respond id (statusResponse (glob w)).

(** *** POST /api/send-message (server.js 228-288) *)

(** The [catch] of the handler: [console.error] with the error itself, then
    500 with its message. *)
Definition sendMessage_catch (id : nat) (e : jserror) (w : world) : world :=
  w |> console_error "Send message error:" e
    |> respond id (Response 500 "error" (error_message e) NoData).

Definition api_send_message (phone message : jsval) (id : nat) (w : world) : world :=
  if negb (isReady (glob w)) then
    w |> respond id (Response 400 "error" "WhatsApp is not ready" NoData)
  else if negb (truthy phone) || negb (truthy message) then
    w |> respond id (Response 400 "error" "Phone and message are required"
                       NoData)
  else
    match phone with
    | JStr p =>
        let formattedPhone := formatPhone p in
        let chatId := chatIdOf formattedPhone in
        match client (glob w) with
        | CObj c =>
            w |> call (IsRegisteredUser c chatId)
              |> park id (SendMessageAwaitRegistered formattedPhone chatId
                            message)
        | r =>
            sendMessage_catch id
              (TypeError (typeError_read r "isRegisteredUser")) w
        end
    | _ => sendMessage_catch id (TypeError "phone.replace is not a function") w
    end.

(** After [await client.isRegisteredUser(chatId)]. *)
Definition sendMessage_registered (formattedPhone chatId : string)
    (message : jsval) (id : nat) (o : outcome) (w : world) : world :=
  match o with
  | Rejected m => sendMessage_catch id (Rejection m) w
  | Resolved isRegistered =>
      if negb (extval_truthy isRegistered) then
        w |> respond id (Response 400 "error"
                           "Phone number is not registered on WhatsApp" NoData)
      else
        match client (glob w) with
        | CObj c =>
            w |> call (SendMessage c chatId (Text message) None)
              |> park id (SendMessageAwaitSend formattedPhone)
        | r => sendMessage_catch id (TypeError (typeError_read r "sendMessage")) w
        end
  end.

(** After [await client.sendMessage(chatId, message)]. *)
Definition sendMessage_sent (formattedPhone : string) (id : nat)
    (o : outcome) (w : world) : option world :=
  match o with
  | Rejected m => Some (sendMessage_catch id (Rejection m) w)
  | Resolved (VMessage serialized) =>
      Some (w |> respond id (Response 200 "success" "Message sent successfully"
                               (SentData formattedPhone serialized)))
  | Resolved _ => None
  end.

(** *** POST /api/send-media (server.js 291-348) *)

Definition sendMedia_catch (id : nat) (e : jserror) (w : world) : world :=
  w |> console_error "Send media error:" e
    |> respond id (Response 500 "error" (error_message e) NoData).

Definition api_send_media (phone mediaUrl caption filename : jsval) (id : nat)
    (w : world) : world :=
  if negb (isReady (glob w)) then
    w |> respond id (Response 400 "error" "WhatsApp is not ready" NoData)
  else if negb (truthy phone) || negb (truthy mediaUrl) then
    w |> respond id (Response 400 "error" "Phone and mediaUrl are required"
                       NoData)
  else
    match phone with
    | JStr p =>
        let formattedPhone := formatPhone p in
        let chatId := chatIdOf formattedPhone in
        w |> call (FromUrl mediaUrl (js_or filename (JStr "file")))
          |> park id (SendMediaAwaitFetch formattedPhone chatId caption)
    | _ => sendMedia_catch id (TypeError "phone.replace is not a function") w
    end.

(** After [await MessageMedia.fromUrl(...)]. *)
Definition sendMedia_fetched (formattedPhone chatId : string)
    (caption : jsval) (id : nat) (o : outcome) (w : world) : option world :=
  match o with
  | Rejected m => Some (sendMedia_catch id (Rejection m) w)
  | Resolved (VMedia media) =>
      match client (glob w) with
      | CObj c =>
          Some (w |> call (SendMessage c chatId (Media media)
                             (Some (js_or caption (JStr EmptyString))))
                  |> park id (SendMediaAwaitSend formattedPhone))
      | r =>
          Some (sendMedia_catch id
                  (TypeError (typeError_read r "sendMessage")) w)
      end
  | Resolved _ => None
  end.

(** After [await client.sendMessage(chatId, media, {caption})]. *)
Definition sendMedia_sent (formattedPhone : string) (id : nat)
    (o : outcome) (w : world) : option world :=
  match o with
  | Rejected m => Some (sendMedia_catch id (Rejection m) w)
  | Resolved (VMessage serialized) =>
      Some (w |> respond id (Response 200 "success" "Media sent successfully"
                               (SentData formattedPhone serialized)))
  | Resolved _ => None
  end.

(** *** POST /api/logout (server.js 351-377) *)

(** The only [catch] of the handler: 500, no console line. *)
Definition logout_catch (id : nat) (m : string) (w : world) : world :=
  w |> respond id (Response 500 "error" m NoData).

Definition api_logout (id : nat) (w : world) : world :=
  match client (glob w) with
  | CObj c => w |> call (Logout c) |> park id LogoutAwaitLogout
  | _ => w |> respond id (json "info" "No active session")
  end.

(** After [await client.logout()]: [client] is read again for [destroy]. *)
Definition logout_loggedOut (id : nat) (o : outcome) (w : world) : world :=
  match o with
  | Rejected m => logout_catch id m w
  | Resolved _ =>
      match client (glob w) with
      | CObj c => w |> call (Destroy c) |> park id LogoutAwaitDestroy
      | r => logout_catch id (typeError_read r "destroy") w
      end
  end.

(** After [await client.destroy()]. *)
Definition logout_destroyed (id : nat) (o : outcome) (w : world) : world :=
  match o with
  | Rejected m => logout_catch id m w
  | Resolved _ =>
      w |> set_client CNull
        |> set_isReady false
        |> set_qrCodeData None
        |> set_isInitializing false
        |> respond id (json "success"
             "Logged out successfully. Use /api/restart to reconnect")
  end.

(** *** The webhook post of the [message] listener (server.js 97-106) *)
Definition webhook_done (o : outcome) (w : world) : world :=
  match o with
  | Rejected m => w |> log ("Webhook error: " +:+ m)
  | Resolved _ => w
  end.

(** ** The event loop *)

(** The first, synchronous part of a handler. *)
Definition handle (r : request) (id : nat) (w : world) : world :=
  match r with
  | PostStart => api_start id w
  | PostRestart => api_restart id w
  | GetQr => api_qr id w
  | GetStatus => api_status id w
  | PostSendMessage phone message => api_send_message phone message id w
  | PostSendMedia phone mediaUrl caption filename =>
      api_send_media phone mediaUrl caption filename id w
  | PostLogout => api_logout id w
  end.

(** A suspended handler continues with the settled promise.  [None]: the
    fulfilled value is outside the contract of the client. *)
Definition resume (t : task) (id : nat) (o : outcome) (w : world)
    : option world :=
  match t with
  | RestartAwaitDestroy => Some (restart_resume id o w)
  | SendMessageAwaitRegistered formattedPhone chatId message =>
      Some (sendMessage_registered formattedPhone chatId message id o w)
  | SendMessageAwaitSend formattedPhone => sendMessage_sent formattedPhone id o w
  | SendMediaAwaitFetch formattedPhone chatId caption =>
      sendMedia_fetched formattedPhone chatId caption id o w
  | SendMediaAwaitSend formattedPhone => sendMedia_sent formattedPhone id o w
  | LogoutAwaitLogout => Some (logout_loggedOut id o w)
  | LogoutAwaitDestroy => Some (logout_destroyed id o w)
  | WebhookAwait => Some (webhook_done o w)
  end.

(** One turn of the event loop: a request arrives, a promise settles, a
    constructed client emits an event, or a restart timer expires.  Each
    runs to completion before the next. *)
Inductive input : Type :=
  | Request (r : request)
  | Settle (id : nat) (o : outcome)
  | Emit (c : nat) (e : event)
  | Timeout.

Definition activate (w : world) : world := set_fresh (S (fresh w)) w.

Definition step (w : world) (i : input) : option world :=
  match i with
  | Request r => Some (handle r (fresh w) (activate w))
  | Settle id o =>
      match parked w !! id with
      | Some t => resume t id o (set_parked (delete id (parked w)) w)
      | None => None
      end
  | Emit c e =>
      if decide (c < nclients w)
      then Some (on_event e (fresh w) (activate w))
      else None
  | Timeout =>
      match timers w with
      | 0 => None
      | S n => Some (initializeClient (set_timers n w))
      end
  end.

Fixpoint run (w : world) (ins : list input) : option world :=
  match ins with
  | [] => Some w
  | i :: ins' =>
      match step w i with
      | Some w' => run w' ins'
      | None => None
      end
  end.

(** The process once the module body has run ([let client; ...]), and after
    the call of [initializeClient()] on its last line.  The start-up banner
    of [app.listen] is left out. *)
Definition loaded : world :=
  World (Globals CUndefined None false false) 0 0 ∅ 0 [] [] [] [].

Definition boot : world := initializeClient loaded.

Definition reachable (w : world) : Prop :=
  ∃ ins, run boot ins = Some w.

(** ** Vocabulary of the properties *)

(** The ways a turn of the event loop can change the four variables: not at
    all, by the assignments of [initializeClient], of one of the listeners,
    of the tail of restart (with [client] kept when there was none to
    destroy), or of restart and logout after [client = null]. *)
Inductive transition : globals → globals → Prop :=
  | t_stay g : transition g g
  | t_construct g c : transition g (Globals (CObj c) None false true)
  | t_qr g d : transition g (Globals (client g) (Some d) (isReady g) false)
  | t_ready g : transition g (Globals (client g) None true false)
  | t_authenticated g :
      transition g (Globals (client g) None (isReady g) (isInitializing g))
  | t_clear g : transition g (Globals (client g) None false false)
  | t_discard g : transition g (Globals CNull None false false).

(** What holds of the variables in every world the process can reach:
    [client] has been assigned, and a stored QR code excludes the
    initializing flag. *)
Definition session_inv (g : globals) : Prop :=
  client g ≠ CUndefined ∧ (qrCodeData g ≠ None → isInitializing g = false).

(** The turns that can call [initializeClient] on their own: a start request
    and the expiry of a restart timer. *)
Definition start_or_timer (i : input) : bool :=
  match i with
  | Request PostStart | Timeout => true
  | _ => false
  end.

Definition is_start (i : input) : bool :=
  match i with
  | Request PostStart => true
  | _ => false
  end.

(** An answer with HTTP 200 and [status: 'info']. *)
Definition informational (r : response) : bool :=
  Nat.eqb (code r) 200 && String.eqb (status r) "info".

(** The variables after restart or logout has reset them. *)
Definition idle : globals := Globals CNull None false false.

(** The turn in which a restart handler answers: the request itself when
    there is no client to destroy, else the settling of [client.destroy()]. *)
Definition restart_responds (w : world) (i : input) (id : nat) : Prop :=
  (i = Request PostRestart ∧ cref_truthy (client (glob w)) = false ∧
   id = fresh w) ∨
  (∃ o, i = Settle id o ∧ parked w !! id = Some RestartAwaitDestroy).

(** A run in which every turn is allowed by [ok], judged in the world the
    turn starts from. *)
Fixpoint run_only (ok : world → input → bool) (w : world)
    (ins : list input) : option world :=
  match ins with
  | [] => Some w
  | i :: ins' =>
      if ok w i then
        match step w i with
        | Some w' => run_only ok w' ins'
        | None => None
        end
      else None
  end.

(** The turns that leave the variables as restart left them: all but a run
    of [initializeClient] (by a timer or by a start request) and a qr or
    ready event of a client constructed earlier. *)
Definition window_turn (i : input) : bool :=
  match i with
  | Timeout | Request PostStart | Emit _ (EvQr _) | Emit _ EvReady => false
  | _ => true
  end.

(** The turn reaches one of the assignments to the session variables: a
    lifecycle listener, the construction in [initializeClient] (from a start
    request or a timer), the reset of restart or of logout. *)
Definition writes_session (w : world) (i : input) : bool :=
  match i with
  | Request PostStart =>
      negb (isReady (glob w)) && negb (isInitializing (glob w))
      && negb (cref_truthy (client (glob w)))
  | Request PostRestart => negb (cref_truthy (client (glob w)))
  | Request _ => false
  | Settle id o =>
      match parked w !! id, o with
      | Some RestartAwaitDestroy, _ => true
      | Some LogoutAwaitDestroy, Resolved _ => true
      | _, _ => false
      end
  | Emit _ (EvMessage _ _ _) => false
  | Emit _ _ => true
  | Timeout =>
      negb (isInitializing (glob w))
      && negb (cref_truthy (client (glob w)) && isReady (glob w))
  end.

Definition calm (w : world) (i : input) : bool := negb (writes_session w i).

Definition no_qr_event (i : input) : bool :=
  match i with
  | Emit _ (EvQr _) => false
  | _ => true
  end.

Definition is_media_task (t : task) : bool :=
  match t with
  | SendMediaAwaitFetch _ _ _ | SendMediaAwaitSend _ => true
  | _ => false
  end.


Definition is_registration_check (e : extcall) : bool :=
  match e with
  | IsRegisteredUser _ _ => true
  | _ => false
  end.

(** What one turn of a handler does to the answers and to the suspended
    handlers: it answers once and is finished, or it reaches an [await], or
    (a listener, the end of the webhook post) it does neither. *)
Inductive turn_effect (id : nat) (w w' : world) : Prop :=
  | turn_answers (r : response) :
      out w' = out w ++ [(id, r)] → parked w' = parked w →
      turn_effect id w w'
  | turn_suspends (t : task) :
      out w' = out w → parked w' = <[id := t]> (parked w) →
      turn_effect id w w'
  | turn_silent :
      out w' = out w → parked w' = parked w → turn_effect id w w'.

(** Activations and answers: no activation is answered twice, every answer
    and every suspended handler belongs to an activation already started,
    and a suspended handler has not answered. *)
Definition activation_inv (w : world) : Prop :=
  NoDup (out w).*1 ∧
  (∀ id, id ∈ (out w).*1 → id < fresh w) ∧
  (∀ id, is_Some (parked w !! id) → id < fresh w ∧ id ∉ (out w).*1).

(** The handle, when there is one, is the client constructed last. *)
Definition handle_inv (w : world) : Prop :=
  ∀ c, client (glob w) = CObj c → nclients w = S c.

Definition is_timeout (i : input) : bool :=
  match i with
  | Timeout => true
  | _ => false
  end.

(** The answer that only the restart handler sends. *)
Definition restart_answer (x : nat * response) : bool :=
  Nat.eqb (code x.2) 200 &&
  String.eqb (message x.2)
    "WhatsApp client restarting. Check /api/qr in a few seconds".

(** * Properties *)

(** ** Phone formatting *)

Section Normalizer.

Lemma strip_non_digits_idem (s : string) :
  strip_non_digits (strip_non_digits s) = strip_non_digits s.
Proof.
  induction s as [|a r IH]; simpl; [reflexivity|].
  destruct (is_digit a) eqn:E; simpl; rewrite ?E, IH; reflexivity.
Qed.

(** What survives the stripping starts with a digit. *)
Lemma strip_non_digits_head (s : string) (a : ascii) (r : string) :
  strip_non_digits s = String a r → is_digit a = true.
Proof.
  induction s as [|b t IH]; simpl; [discriminate|].
  destruct (is_digit b) eqn:E; [|exact IH].
  intros H. injection H as <- _. exact E.
Qed.

(** The tail of a stripped string is stripped. *)
Lemma strip_non_digits_tail (a : ascii) (r : string) :
  strip_non_digits (String a r) = String a r → strip_non_digits r = r.
Proof.
  simpl. destruct (is_digit a) eqn:E.
  - intros H. injection H; auto.
  - intros H. apply strip_non_digits_head in H. congruence.
Qed.

(** The two consecutive [if]s of the handlers and the [else if] of the
    specification pick the same digits. *)
Lemma formatPhone_normalize_digits (raw : string) :
  formatPhone raw = normalize_digits raw.
Proof.
  unfold formatPhone, normalize_digits, startsWith.
  destruct (String.prefix "0" (strip_non_digits raw)) eqn:E0.
  - destruct (substring1 (strip_non_digits raw)); reflexivity.
  - destruct (String.prefix "62" (strip_non_digits raw)); reflexivity.
Qed.

Lemma prefix_cons (a b : ascii) (p s : string) :
  String.prefix (String a p) (String b s) = true →
  a = b ∧ String.prefix p s = true.
Proof.
  cbn [String.prefix]. destruct (ascii_dec a b); [auto|discriminate].
Qed.

(** The formatted phone is the country code followed by digits only. *)
Lemma formatPhone_shape (raw : string) :
  ∃ r, formatPhone raw = "62" +:+ r ∧ strip_non_digits r = r.
Proof.
  rewrite formatPhone_normalize_digits. unfold normalize_digits.
  pose proof (strip_non_digits_idem raw) as I.
  destruct (strip_non_digits raw) as [|a d] eqn:D.
  - exists EmptyString. split; reflexivity.
  - destruct (String.prefix "0" (String a d)) eqn:E0.
    + exists d. split; [reflexivity|]. eapply strip_non_digits_tail, I.
    + destruct (String.prefix "62" (String a d)) eqn:E62.
      * apply prefix_cons in E62 as [<- E2].
        destruct d as [|b d']; [discriminate|].
        apply prefix_cons in E2 as [<- _].
        exists d'. split; [reflexivity|].
        eapply strip_non_digits_tail, strip_non_digits_tail, I.
      * exists (String a d). split; [reflexivity|exact I].
Qed.

Lemma formatPhone_idem (raw : string) :
  formatPhone (formatPhone raw) = formatPhone raw.
Proof.
  destruct (formatPhone_shape raw) as (r & -> & Hr).
  change ("62" +:+ r) with (String "6" (String "2" r)).
  unfold formatPhone, startsWith.
  cbn [strip_non_digits is_digit nat_of_ascii andb Nat.leb].
  change (is_digit "6") with true. change (is_digit "2") with true.
  cbv iota. rewrite Hr. destruct r; reflexivity.
Qed.

Lemma endsWith_append (d p : string) : endsWith (d +:+ p) p = true.
Proof.
  induction d as [|a d IH]; simpl.
  - destruct p; simpl; rewrite ?Ascii.eqb_refl, ?String.eqb_refl; reflexivity.
  - rewrite IH. apply orb_true_r.
Qed.

(** C9. Formatting is defined on every string and always yields the
    country code, digits only, then the suffix (so for the empty string and
    for a string without digits, the bare country code); formatting its own
    digits again changes nothing, with or without the suffix, for the
    handlers' statements and for the reference wording alike. *)
Theorem normalization_total_idempotent (x : string) :
  (∃ r, chatIdOf (formatPhone x) = ("62" +:+ r) +:+ "@c.us" ∧
        strip_non_digits r = r) ∧
  endsWith (chatIdOf (formatPhone x)) "@c.us" = true ∧
  formatPhone (formatPhone x) = formatPhone x ∧
  chatIdOf (formatPhone (formatPhone x)) = chatIdOf (formatPhone x) ∧
  normalize (normalize_digits x) = normalize x ∧
  chatIdOf (formatPhone EmptyString) = "62@c.us" ∧
  chatIdOf (formatPhone "+ (n/a) -") = "62@c.us".
Proof.
  repeat split.
  - destruct (formatPhone_shape x) as (r & E & Hr).
    exists r. unfold chatIdOf. rewrite E. auto.
  - apply endsWith_append.
  - apply formatPhone_idem.
  - rewrite formatPhone_idem. reflexivity.
  - unfold normalize. rewrite <- !formatPhone_normalize_digits.
    rewrite formatPhone_idem. reflexivity.
Qed.

End Normalizer.

(** ** The session variables along the event loop *)

Ltac open_handlers :=
  unfold handle, resume, on_event, api_start, api_restart, restart_resume,
    restart_finish, api_qr, api_status, api_send_message,
    sendMessage_registered, sendMessage_sent, sendMessage_catch,
    api_send_media, sendMedia_fetched, sendMedia_sent, sendMedia_catch,
    api_logout, logout_loggedOut, logout_destroyed, logout_catch,
    webhook_done, initializeClient, schedule, activate in *.

Section Session.

Lemma initializeClient_transition (w : world) :
  transition (glob w) (glob (initializeClient w)).
Proof.
  unfold initializeClient. repeat case_match; simpl; constructor.
Qed.

Lemma handle_transition (r : request) (id : nat) (w : world) :
  transition (glob w) (glob (handle r id w)).
Proof.
  destruct r; open_handlers; repeat case_match; simpl; constructor.
Qed.

Lemma resume_transition (t : task) (id : nat) (o : outcome) (w w' : world) :
  resume t id o w = Some w' → transition (glob w) (glob w').
Proof.
  destruct t; open_handlers; intros H; repeat case_match; simplify_eq;
    simpl; constructor.
Qed.

Lemma on_event_transition (e : event) (id : nat) (w : world) :
  transition (glob w) (glob (on_event e id w)).
Proof.
  destruct e; simpl; constructor.
Qed.

(** Every turn of the event loop is one of the seven transitions. *)
Lemma step_transition (w w' : world) (i : input) :
  step w i = Some w' → transition (glob w) (glob w').
Proof.
  destruct i as [r|id o|c e|]; simpl; intros H.
  - simplify_eq.
    apply (handle_transition r (fresh w) (activate w)).
  - destruct (parked w !! id) as [t|] eqn:P; [|discriminate].
    apply resume_transition in H. exact H.
  - case_decide; simplify_eq.
    apply (on_event_transition e (fresh w) (activate w)).
  - destruct (timers w) as [|n]; simplify_eq.
    apply (initializeClient_transition (set_timers n w)).
Qed.

Lemma transition_inv (g g' : globals) :
  transition g g' → session_inv g → session_inv g'.
Proof.
  unfold session_inv.
  intros T [Hc Hq]; destruct T; simpl; split; auto; congruence.
Qed.

Lemma run_inv (ins : list input) (w w' : world) :
  run w ins = Some w' → session_inv (glob w) → session_inv (glob w').
Proof.
  revert w. induction ins as [|i ins IH]; simpl; intros w H I.
  - congruence.
  - destruct (step w i) as [w1|] eqn:S; [|discriminate].
    eapply IH; [exact H|].
    eapply transition_inv; [eapply step_transition, S | exact I].
Qed.

Lemma boot_inv : session_inv (glob boot).
Proof. split; simpl; congruence. Qed.

Lemma reachable_inv (w : world) : reachable w → session_inv (glob w).
Proof.
  intros [ins R]. eapply run_inv; [exact R | exact boot_inv].
Qed.

Lemma run_app (w : world) (xs ys : list input) :
  run w (xs ++ ys) =
  match run w xs with Some w1 => run w1 ys | None => None end.
Proof.
  revert w. induction xs as [|x xs IH]; simpl; intros w; [reflexivity|].
  destruct (step w x); [apply IH | reflexivity].
Qed.

Lemma reachable_run (w w' : world) (ins : list input) :
  reachable w → run w ins = Some w' → reachable w'.
Proof.
  intros [pre R] H. exists (pre ++ ins). rewrite run_app, R. exact H.
Qed.

End Session.

(** ** Starting while initializing *)

Section Start.

(** While [isInitializing] is set, a start request only answers and a timer
    expiry only logs. *)
Lemma initializing_turn (w w1 : world) (i : input) :
  isInitializing (glob w) = true →
  start_or_timer i = true →
  step w i = Some w1 →
  glob w1 = glob w ∧ nclients w1 = nclients w ∧ calls w1 = calls w ∧
  ∃ rs, out w1 = out w ++ rs ∧
        length rs = (if is_start i then 1 else 0) ∧
        Forall (λ x, informational x.2 = true) rs.
Proof.
  intros I K S.
  destruct i as [[]| | |]; try discriminate; simpl in S.
  - simplify_eq. unfold api_start. simpl. rewrite I.
    destruct (isReady (glob w)); simpl;
      (repeat split; eexists; split; [reflexivity|];
       split; [reflexivity|]; repeat constructor).
  - destruct (timers w) as [|n]; simplify_eq.
    unfold initializeClient. simpl. rewrite I. simpl.
    repeat split. exists []. rewrite app_nil_r. repeat split. constructor.
Qed.

(** A start request or a timer expiry constructs no client, or constructs
    one and leaves [isInitializing] set. *)
Lemma start_or_timer_turn (w w1 : world) (i : input) :
  start_or_timer i = true →
  step w i = Some w1 →
  nclients w1 = nclients w ∨
  (nclients w1 = S (nclients w) ∧ isInitializing (glob w1) = true).
Proof.
  intros K S.
  destruct i as [[]| | |]; try discriminate; simpl in S.
  - simplify_eq. open_handlers. repeat case_match; simpl; auto.
  - destruct (timers w) as [|n]; simplify_eq.
    open_handlers. repeat case_match; simpl; auto.
Qed.

Lemma initializing_run (ins : list input) (w w' : world) :
  isInitializing (glob w) = true →
  Forall (λ i, start_or_timer i = true) ins →
  run w ins = Some w' →
  glob w' = glob w ∧ nclients w' = nclients w ∧ calls w' = calls w ∧
  ∃ rs, out w' = out w ++ rs ∧
        length rs = length (List.filter is_start ins) ∧
        Forall (λ x, informational x.2 = true) rs.
Proof.
  revert w. induction ins as [|i ins IH]; simpl; intros w I F R.
  - simplify_eq. repeat split. exists []. rewrite app_nil_r.
    repeat split. constructor.
  - destruct (step w i) as [w1|] eqn:S; [|discriminate].
    inversion F as [|? ? Ki F']; subst.
    destruct (initializing_turn _ _ _ I Ki S)
      as (G1 & N1 & C1 & rs1 & O1 & L1 & A1).
    assert (I1 : isInitializing (glob w1) = true) by (rewrite G1; exact I).
    destruct (IH _ I1 F' R) as (G & N & C & rs & O & L & A).
    repeat split; try congruence.
    exists (rs1 ++ rs). split; [|split].
    + rewrite O, O1, app_assoc. reflexivity.
    + rewrite length_app, L1, L. destruct (is_start i); reflexivity.
    + apply Forall_app; auto.
Qed.

(** C1. Start requests and calls of [initializeClient] from the restart
    timer, in any number and order, construct at most one client; and from a
    world in which [isInitializing] is set they construct none: the four
    variables and the list of external calls stay as they were, every start
    request is answered with HTTP 200 and status info, and a call of
    [initializeClient] only writes its console line. *)
Theorem start_while_initializing (ins : list input) (w w' : world) :
  Forall (λ i, start_or_timer i = true) ins →
  run w ins = Some w' →
  nclients w' ≤ S (nclients w) ∧
  (isInitializing (glob w) = true →
   glob w' = glob w ∧ nclients w' = nclients w ∧ calls w' = calls w ∧
   (∃ rs, out w' = out w ++ rs ∧
          length rs = length (List.filter is_start ins) ∧
          Forall (λ x, informational x.2 = true) rs) ∧
   initializeClient w = log "Client is already initializing..." w).
Proof.
  intros F R. split.
  - revert w F R. induction ins as [|i ins IH]; simpl; intros w F R.
    + simplify_eq. lia.
    + destruct (step w i) as [w1|] eqn:S; [|discriminate].
      inversion F as [|? ? Ki F']; subst.
      destruct (start_or_timer_turn _ _ _ Ki S) as [E|[E I1]].
      * rewrite <- E. eapply IH; eauto.
      * destruct (initializing_run _ _ _ I1 F' R) as (_ & N & _). lia.
  - intros I.
    destruct (initializing_run _ _ _ I F R) as (G & N & C & X).
    repeat (split; [assumption|]).
    unfold initializeClient. rewrite I. reflexivity.
Qed.

(** The world two restarts and one timer expiry after start-up: a second
    client is initializing and one timer is still pending. *)
Lemma start_while_initializing_witness :
  let w := default boot
             (run boot [Request PostRestart; Settle 0 (Resolved VUndefined);
                        Request PostRestart; Timeout]) in
  ∃ w', run w [Request PostStart; Timeout; Request PostStart] = Some w' ∧
        nclients w' ≤ S (nclients w) ∧
        glob w' = glob w ∧ nclients w' = nclients w ∧ calls w' = calls w ∧
        (∃ rs, out w' = out w ++ rs ∧ length rs = 2 ∧
               Forall (λ x, informational x.2 = true) rs) ∧
        initializeClient w = log "Client is already initializing..." w.
Proof.
  intros w.
  pose (ins := [Request PostStart; Timeout; Request PostStart]).
  pose (w' := default boot (run w ins)).
  assert (R : run w ins = Some w') by (vm_compute; reflexivity).
  assert (F : Forall (λ i, start_or_timer i = true) ins)
    by (repeat constructor).
  destruct (start_while_initializing ins w w' F R) as [H1 H2].
  exists w'. split; [exact R|]. split; [exact H1|].
  apply H2. reflexivity.
Defined.

End Start.

(** ** The send endpoints *)

Section Send.

(** C2. When [isReady] is false, a send-message and a send-media request are
    answered at once with HTTP 400, status error, "WhatsApp is not ready",
    and the turn does nothing else: the world after it is the world before
    it plus that answer, so no call left the process and nothing is
    suspended.  When [isReady] is true and the phone, or the message
    (respectively the media URL), is falsy (absent, null, the empty string,
    0 or false), the answer is HTTP 400 with the handler's "... are
    required" message, again with nothing else done. *)
Theorem send_guards (w : world)
    (phone message mediaUrl caption filename : jsval) :
  (isReady (glob w) = false →
   step w (Request (PostSendMessage phone message)) =
     Some (respond (fresh w)
             (Response 400 "error" "WhatsApp is not ready" NoData)
             (activate w)) ∧
   step w (Request (PostSendMedia phone mediaUrl caption filename)) =
     Some (respond (fresh w)
             (Response 400 "error" "WhatsApp is not ready" NoData)
             (activate w))) ∧
  (isReady (glob w) = true →
   (truthy phone = false ∨ truthy message = false →
    step w (Request (PostSendMessage phone message)) =
      Some (respond (fresh w)
              (Response 400 "error" "Phone and message are required" NoData)
              (activate w))) ∧
   (truthy phone = false ∨ truthy mediaUrl = false →
    step w (Request (PostSendMedia phone mediaUrl caption filename)) =
      Some (respond (fresh w)
              (Response 400 "error" "Phone and mediaUrl are required" NoData)
              (activate w)))).
Proof.
  split; intros R.
  - simpl. unfold api_send_message, api_send_media. simpl. rewrite R.
    split; reflexivity.
  - split; intros F; simpl; unfold api_send_message, api_send_media; simpl;
      rewrite R; simpl.
    + destruct F as [-> | ->]; simpl; rewrite ?orb_true_r; reflexivity.
    + destruct F as [-> | ->]; simpl; rewrite ?orb_true_r; reflexivity.
Qed.

(** At start-up the session is not ready; after a ready event an empty
    phone and an absent message or media URL are refused. *)
Lemma send_guards_witness :
  let ready := on_event EvReady 0 (activate boot) in
  (step boot (Request (PostSendMessage (JStr "081111") (JStr "hi"))) =
     Some (respond 0 (Response 400 "error" "WhatsApp is not ready" NoData)
             (activate boot)) ∧
   step boot (Request (PostSendMedia (JStr "081111") (JStr "http://h/a.png")
                         JUndefined JUndefined)) =
     Some (respond 0 (Response 400 "error" "WhatsApp is not ready" NoData)
             (activate boot))) ∧
  step ready (Request (PostSendMessage (JStr EmptyString) JUndefined)) =
    Some (respond 1
            (Response 400 "error" "Phone and message are required" NoData)
            (activate ready)) ∧
  step ready (Request (PostSendMedia JUndefined (JStr EmptyString)
                         JUndefined JUndefined)) =
    Some (respond 1
            (Response 400 "error" "Phone and mediaUrl are required" NoData)
            (activate ready)).
Proof.
  intros ready. split; [|split].
  - apply (send_guards boot (JStr "081111") (JStr "hi") (JStr "http://h/a.png")
             JUndefined JUndefined). reflexivity.
  - apply (send_guards ready (JStr EmptyString) JUndefined JUndefined
             JUndefined JUndefined); [reflexivity | left; reflexivity].
  - apply (send_guards ready JUndefined JUndefined (JStr EmptyString)
             JUndefined JUndefined); [reflexivity | left; reflexivity].
Defined.

(** C3. The chat id that the handlers compute from a phone string is the
    reference normalization of that string, and it is what both endpoints
    hand on: send-message as the argument of [isRegisteredUser] (and, kept
    in the suspended handler, of [sendMessage]), send-media as the chat id
    kept for [sendMessage] after the fetch.  The three examples of the
    specification evaluate as stated. *)
Theorem normalization_reference (raw : string) :
  chatIdOf (formatPhone raw) = normalize raw ∧
  (∀ (w : world) (c : nat) (message : jsval),
     isReady (glob w) = true → raw ≠ EmptyString → truthy message = true →
     client (glob w) = CObj c →
     step w (Request (PostSendMessage (JStr raw) message)) =
       Some (activate w
               |> call (IsRegisteredUser c (normalize raw))
               |> park (fresh w)
                    (SendMessageAwaitRegistered (normalize_digits raw)
                       (normalize raw) message))) ∧
  (∀ (w : world) (mediaUrl caption filename : jsval),
     isReady (glob w) = true → raw ≠ EmptyString → truthy mediaUrl = true →
     step w (Request (PostSendMedia (JStr raw) mediaUrl caption filename)) =
       Some (activate w
               |> call (FromUrl mediaUrl (js_or filename (JStr "file")))
               |> park (fresh w)
                    (SendMediaAwaitFetch (normalize_digits raw)
                       (normalize raw) caption))) ∧
  chatIdOf (formatPhone "081234567890") = "6281234567890@c.us" ∧
  chatIdOf (formatPhone "6281234567890") = "6281234567890@c.us" ∧
  chatIdOf (formatPhone "81234567890") = "6281234567890@c.us".
Proof.
  assert (T : raw ≠ EmptyString → truthy (JStr raw) = true).
  { intros N. simpl. destruct raw; [congruence | reflexivity]. }
  repeat split.
  - unfold chatIdOf, normalize. rewrite formatPhone_normalize_digits.
    reflexivity.
  - intros w c message R N M C. specialize (T N). simpl in *.
    unfold api_send_message. simpl. rewrite R, T, M, C. simpl.
    unfold chatIdOf, normalize. rewrite formatPhone_normalize_digits.
    reflexivity.
  - intros w mediaUrl caption filename R N M. specialize (T N). simpl in *.
    unfold api_send_media. simpl. rewrite R, T, M. simpl.
    unfold chatIdOf, normalize. rewrite formatPhone_normalize_digits.
    reflexivity.
Qed.

Lemma normalization_reference_witness :
  let ready := on_event EvReady 0 (activate boot) in
  step ready (Request (PostSendMessage (JStr "0812-3456") (JStr "hi"))) =
    Some (activate ready
            |> call (IsRegisteredUser 0 "628123456@c.us")
            |> park 1 (SendMessageAwaitRegistered "628123456"
                         "628123456@c.us" (JStr "hi"))) ∧
  step ready (Request (PostSendMedia (JStr "0812-3456") (JStr "http://h/a.png")
                         JUndefined JUndefined)) =
    Some (activate ready
            |> call (FromUrl (JStr "http://h/a.png") (JStr "file"))
            |> park 1 (SendMediaAwaitFetch "628123456" "628123456@c.us"
                         JUndefined)).
Proof.
  intros ready.
  destruct (normalization_reference "0812-3456") as (_ & Hm & Hf & _).
  split.
  - apply (Hm ready 0 (JStr "hi")); [reflexivity | discriminate |
      reflexivity | reflexivity].
  - apply (Hf ready (JStr "http://h/a.png") JUndefined JUndefined);
      [reflexivity | discriminate | reflexivity].
Defined.

(** A suspended handler stays suspended until its own promise settles. *)
Lemma parked_stable (w w' : world) (i : input) (id : nat) (t : task) :
  parked w !! id = Some t → id < fresh w →
  (∀ o, i ≠ Settle id o) →
  step w i = Some w' →
  parked w' !! id = Some t ∧ id < fresh w'.
Proof.
  intros P L N S.
  assert (F : ∀ t', <[fresh w := t']> (parked w) !! id = Some t).
  { intros t'. rewrite lookup_insert_ne; [exact P | lia]. }
  destruct i as [r|id' o|c e|]; simpl in S.
  - simplify_eq. destruct r; open_handlers; repeat case_match; simpl;
      rewrite ?F; auto with lia.
  - destruct (parked w !! id') as [t1|] eqn:P1; [|discriminate].
    assert (id ≠ id') by (intros ->; eapply N; eauto).
    assert (D : delete id' (parked w) !! id = Some t)
      by (rewrite lookup_delete_ne; auto).
    assert (D' : ∀ t', <[id' := t']> (delete id' (parked w)) !! id = Some t)
      by (intros; rewrite lookup_insert_ne; auto).
    destruct t1; open_handlers; simpl in S; repeat case_match;
      simplify_eq; simpl; rewrite ?D'; auto.
  - case_decide; [|discriminate]. simplify_eq.
    destruct e; simpl; rewrite ?F; auto with lia.
  - destruct (timers w) as [|n]; [discriminate|]. simplify_eq.
    unfold initializeClient. repeat case_match; simpl; auto.
Qed.

(** C6, as the code has it. Send-message, when the session is ready, the
    phone a non-empty string, the message truthy and a client held, makes one
    call, [isRegisteredUser] on the chat id, and waits; when that call
    reports false the handler answers HTTP 400 with status error and is
    finished without a further call, so nothing is sent.  Send-media, when
    the session is ready, the phone a non-empty string and the media URL
    truthy, makes one call, [fromUrl], and waits.  Once the media is loaded
    it calls [sendMessage] with the media and the caption if a client is
    held at that moment, and answers success once the message is sent; if no
    client is held then, it answers HTTP 500 and sends nothing; when the
    fetch or the send fails it answers HTTP 500 and makes no further call.
    However its two promises settle, no turn of a send-media handler calls
    [isRegisteredUser]. *)
Theorem registration_check_asymmetry :
  (∀ (w : world) (c : nat) (p : string) (message : jsval),
     isReady (glob w) = true → p ≠ EmptyString → truthy message = true →
     client (glob w) = CObj c →
     ∃ w1, step w (Request (PostSendMessage (JStr p) message)) = Some w1 ∧
           calls w1 = calls w ++ [IsRegisteredUser c (chatIdOf (formatPhone p))] ∧
           out w1 = out w ∧
           parked w1 !! fresh w =
             Some (SendMessageAwaitRegistered (formatPhone p)
                     (chatIdOf (formatPhone p)) message)) ∧
  (∀ (w : world) (id : nat) (f chatId : string) (message : jsval),
     parked w !! id = Some (SendMessageAwaitRegistered f chatId message) →
     ∃ w', step w (Settle id (Resolved (VBool false))) = Some w' ∧
           calls w' = calls w ∧ parked w' !! id = None ∧
           out w' = out w ++
             [(id, Response 400 "error"
                     "Phone number is not registered on WhatsApp" NoData)]) ∧
  (∀ (w : world) (p : string) (mediaUrl caption filename : jsval),
     isReady (glob w) = true → p ≠ EmptyString → truthy mediaUrl = true →
     ∃ w1, step w (Request (PostSendMedia (JStr p) mediaUrl caption filename))
           = Some w1 ∧
           calls w1 = calls w ++ [FromUrl mediaUrl (js_or filename (JStr "file"))] ∧
           out w1 = out w ∧
           parked w1 !! fresh w =
             Some (SendMediaAwaitFetch (formatPhone p)
                     (chatIdOf (formatPhone p)) caption)) ∧
  (∀ (w : world) (id c m : nat) (f chatId : string) (caption : jsval),
     parked w !! id = Some (SendMediaAwaitFetch f chatId caption) →
     client (glob w) = CObj c →
     ∃ w', step w (Settle id (Resolved (VMedia m))) = Some w' ∧
           calls w' = calls w ++
             [SendMessage c chatId (Media m)
                (Some (js_or caption (JStr EmptyString)))] ∧
           out w' = out w ∧
           parked w' !! id = Some (SendMediaAwaitSend f)) ∧
  (∀ (w : world) (id m : nat) (f chatId : string) (caption : jsval),
     parked w !! id = Some (SendMediaAwaitFetch f chatId caption) →
     cref_truthy (client (glob w)) = false →
     ∃ w', step w (Settle id (Resolved (VMedia m))) = Some w' ∧
           calls w' = calls w ∧ parked w' !! id = None ∧
           out w' = out w ++
             [(id, Response 500 "error"
                     (typeError_read (client (glob w)) "sendMessage")
                     NoData)]) ∧
  (∀ (w : world) (id : nat) (f serialized : string),
     parked w !! id = Some (SendMediaAwaitSend f) →
     ∃ w', step w (Settle id (Resolved (VMessage serialized))) = Some w' ∧
           calls w' = calls w ∧ parked w' !! id = None ∧
           out w' = out w ++
             [(id, Response 200 "success" "Media sent successfully"
                     (SentData f serialized))]) ∧
  (∀ (w : world) (id : nat) (t : task) (m : string),
     parked w !! id = Some t → is_media_task t = true →
     ∃ w', step w (Settle id (Rejected m)) = Some w' ∧
           calls w' = calls w ∧ parked w' !! id = None ∧
           out w' = out w ++ [(id, Response 500 "error" m NoData)]) ∧
  (∀ (w w' : world) (id : nat) (t : task) (o : outcome),
     parked w !! id = Some t → is_media_task t = true →
     step w (Settle id o) = Some w' →
     ∃ l, calls w' = calls w ++ l ∧
          Forall (λ e, is_registration_check e = false) l).
Proof.
  assert (T : ∀ p, p ≠ EmptyString → truthy (JStr p) = true).
  { intros p N. simpl. destruct p; [congruence | reflexivity]. }
  repeat apply conj.
  - intros w c p message R N M C. specialize (T p N). simpl in T.
    eexists. split; [reflexivity|]. simpl. unfold api_send_message. simpl.
    rewrite R, T, M, C. simpl. repeat split. apply lookup_insert_eq.
  - intros w id f chatId message P. simpl. rewrite P. simpl.
    eexists. split; [reflexivity|]. simpl. repeat split.
    apply lookup_delete_eq.
  - intros w p mediaUrl caption filename R N M. specialize (T p N).
    simpl in T. eexists. split; [reflexivity|]. simpl.
    unfold api_send_media. simpl. rewrite R, T, M. simpl. repeat split.
    apply lookup_insert_eq.
  - intros w id c m f chatId caption P C. simpl. rewrite P. simpl.
    rewrite C. eexists. split; [reflexivity|]. simpl. repeat split.
    apply lookup_insert_eq.
  - intros w id m f chatId caption P C. simpl. rewrite P. simpl.
    destruct (client (glob w)) eqn:E; try discriminate;
      (eexists; split; [reflexivity|]); simpl; repeat split;
      apply lookup_delete_eq.
  - intros w id f serialized P. simpl. rewrite P. simpl.
    eexists. split; [reflexivity|]. simpl. repeat split.
    apply lookup_delete_eq.
  - intros w id t m P K. simpl. rewrite P.
    destruct t; try discriminate; simpl; eexists; (split; [reflexivity|]);
      simpl; repeat split; apply lookup_delete_eq.
  - intros w w' id t o P K S. simpl in S. rewrite P in S.
    destruct t; try discriminate; open_handlers; simpl in S;
      repeat case_match; simplify_eq; simpl;
      first [ exists []; rewrite app_nil_r; split; [reflexivity|constructor]
            | eexists; split; [reflexivity|]; repeat constructor ].
Qed.

(** With the session ready at start-up: a send-message to an unregistered
    number, and a send-media carried through; in [lost] a restart has been
    carried through while the send-media waited for its fetch. *)
Lemma registration_check_asymmetry_witness :
  let ready := default boot (step boot (Emit 0 EvReady)) in
  let t1 := default boot
              (step ready (Request (PostSendMessage (JStr "081111")
                                      (JStr "hi")))) in
  let m1 := default boot
              (step ready (Request (PostSendMedia (JStr "081111")
                                      (JStr "http://h/a.png") JUndefined
                                      JUndefined))) in
  let m2 := default boot (step m1 (Settle 1 (Resolved (VMedia 0)))) in
  let lost := default boot
                (run m1 [Request PostRestart; Settle 2 (Resolved VUndefined)]) in
  (calls t1 = calls ready ++ [IsRegisteredUser 0 "6281111@c.us"] ∧
   ∃ w', step t1 (Settle 1 (Resolved (VBool false))) = Some w' ∧
         calls w' = calls t1 ∧ parked w' !! 1 = None ∧
         out w' = out t1 ++
           [(1, Response 400 "error"
                  "Phone number is not registered on WhatsApp" NoData)]) ∧
  calls m1 = calls ready ++ [FromUrl (JStr "http://h/a.png") (JStr "file")] ∧
  calls m2 = calls m1 ++
    [SendMessage 0 "6281111@c.us" (Media 0) (Some (JStr EmptyString))] ∧
  (∃ w', step m2 (Settle 1 (Resolved (VMessage "3EB0"))) = Some w' ∧
         calls w' = calls m2 ∧ parked w' !! 1 = None ∧
         out w' = out m2 ++
           [(1, Response 200 "success" "Media sent successfully"
                  (SentData "6281111" "3EB0"))]) ∧
  (∃ w', step m1 (Settle 1 (Rejected "404")) = Some w' ∧
         calls w' = calls m1 ∧ parked w' !! 1 = None ∧
         out w' = out m1 ++ [(1, Response 500 "error" "404" NoData)]) ∧
  (∃ w', step lost (Settle 1 (Resolved (VMedia 0))) = Some w' ∧
         calls w' = calls lost ∧ parked w' !! 1 = None ∧
         out w' = out lost ++
           [(1, Response 500 "error"
                  "Cannot read properties of null (reading 'sendMessage')"
                  NoData)]) ∧
  (∃ l, calls m2 = calls m1 ++ l ∧
        Forall (λ e, is_registration_check e = false) l).
Proof.
  intros ready t1 m1 m2 lost.
  destruct registration_check_asymmetry as (A & B & C & D & H & E & G & F).
  assert (Et : step ready (Request (PostSendMessage (JStr "081111")
                                      (JStr "hi"))) = Some t1)
    by (vm_compute; reflexivity).
  assert (Em : step ready (Request (PostSendMedia (JStr "081111")
                                      (JStr "http://h/a.png") JUndefined
                                      JUndefined)) = Some m1)
    by (vm_compute; reflexivity).
  assert (Em2 : step m1 (Settle 1 (Resolved (VMedia 0))) = Some m2)
    by (vm_compute; reflexivity).
  repeat apply conj.
  - destruct (A ready 0 "081111" (JStr "hi")) as (x & S & Cx & _);
      [reflexivity | discriminate | reflexivity | reflexivity |].
    rewrite Et in S. injection S as <-. exact Cx.
  - apply (B t1 1 "6281111" "6281111@c.us" (JStr "hi")).
    vm_compute. reflexivity.
  - destruct (C ready "081111" (JStr "http://h/a.png") JUndefined JUndefined)
      as (x & S & Cx & _); [reflexivity | discriminate | reflexivity |].
    rewrite Em in S. injection S as <-. exact Cx.
  - destruct (D m1 1 0 0 "6281111" "6281111@c.us" JUndefined)
      as (x & S & Cx & _); [vm_compute; reflexivity | reflexivity |].
    rewrite Em2 in S. injection S as <-. exact Cx.
  - apply (E m2 1 "6281111" "3EB0"). vm_compute. reflexivity.
  - apply (G m1 1 (SendMediaAwaitFetch "6281111" "6281111@c.us" JUndefined)
             "404"); [vm_compute; reflexivity | reflexivity].
  - apply (H lost 1 0 "6281111" "6281111@c.us" JUndefined);
      [vm_compute; reflexivity | reflexivity].
  - apply (F m1 m2 1 (SendMediaAwaitFetch "6281111" "6281111@c.us" JUndefined)
             (Resolved (VMedia 0)));
      [vm_compute; reflexivity | reflexivity | exact Em2].
Defined.

(** The claim C6 at send-media, in a ready session with a non-empty phone
    and media URL.  First: [isReady] is set but no client is held (a restart
    discarded the handle although [destroy] failed, and the old client then
    reported ready).  Second: a client is held at the request and a restart
    is carried through while the media is fetched.  Either way the media is
    fetched, [sendMessage] is never called and the answer is HTTP 500. *)
Lemma send_media_not_sent :
  (∃ w, run boot [Request PostRestart; Settle 0 (Rejected "Target closed");
                  Emit 0 EvReady;
                  Request (PostSendMedia (JStr "081111") (JStr "http://h/a.png")
                             JUndefined JUndefined);
                  Settle 2 (Resolved (VMedia 0))] = Some w ∧
        calls w = [NewClient 0; Initialize 0; Destroy 0; SetTimeout 1000;
                   FromUrl (JStr "http://h/a.png") (JStr "file")] ∧
        out w = [(0, json "success"
                       "WhatsApp client restarting. Check /api/qr in a few seconds");
                 (2, Response 500 "error"
                       "Cannot read properties of null (reading 'sendMessage')"
                       NoData)] ∧
        parked w = ∅) ∧
  (∃ w, run boot [Emit 0 EvReady;
                  Request (PostSendMedia (JStr "081111") (JStr "http://h/a.png")
                             JUndefined JUndefined);
                  Request PostRestart; Settle 2 (Resolved VUndefined);
                  Settle 1 (Resolved (VMedia 0))] = Some w ∧
        calls w = [NewClient 0; Initialize 0;
                   FromUrl (JStr "http://h/a.png") (JStr "file");
                   Destroy 0; SetTimeout 1000] ∧
        out w = [(2, json "success"
                       "WhatsApp client restarting. Check /api/qr in a few seconds");
                 (1, Response 500 "error"
                       "Cannot read properties of null (reading 'sendMessage')"
                       NoData)] ∧
        parked w = ∅).
Proof.
  split; eexists; (split; [vm_compute; reflexivity|]);
    repeat split; vm_compute; reflexivity.
Qed.

End Send.

(** ** Restart and logout *)

Section Teardown.

(** C8. A logout request that finds [client] null is answered with HTTP 200,
    status info, "No active session"; the turn does nothing else, so
    [client], [isReady], [qrCodeData] and [isInitializing] are as before. *)
Theorem logout_without_session (w : world) :
  client (glob w) = CNull →
  ∃ w', step w (Request PostLogout) = Some w' ∧
        w' = respond (fresh w) (json "info" "No active session") (activate w) ∧
        glob w' = glob w ∧ calls w' = calls w ∧ parked w' = parked w ∧
        informational (json "info" "No active session") = true.
Proof.
  intros C. eexists. split; [reflexivity|].
  simpl. unfold api_logout. simpl. rewrite C. repeat split.
Qed.

(** After a completed logout the variable is null; a second logout is the
    informational no-op. *)
Lemma logout_without_session_witness :
  let w := default boot
             (run boot [Request PostLogout; Settle 0 (Resolved VUndefined);
                        Settle 0 (Resolved VUndefined)]) in
  ∃ w', step w (Request PostLogout) = Some w' ∧
        w' = respond 1 (json "info" "No active session") (activate w) ∧
        glob w' = glob w ∧ calls w' = calls w ∧ parked w' = parked w ∧
        informational (json "info" "No active session") = true.
Proof.
  intros w. apply (logout_without_session w). reflexivity.
Defined.




End Teardown.

(** ** What the read endpoints report *)

Section Reads.

Lemma idle_fields (w : world) :
  glob w = idle →
  client (glob w) = CNull ∧ qrCodeData (glob w) = None ∧
  isReady (glob w) = false ∧ isInitializing (glob w) = false.
Proof. intros ->. repeat split. Qed.

(** A turn other than a run of [initializeClient] and a qr or ready event
    keeps the variables reset. *)
Lemma window_turn_idle (w w' : world) (i : input) :
  glob w = idle → window_turn i = true → step w i = Some w' →
  glob w' = idle.
Proof.
  intros G K S. destruct (idle_fields w G) as (C & Q & R & I).
  assert (D : ∀ g, client g = CNull → qrCodeData g = None →
                   isReady g = false → isInitializing g = false → g = idle).
  { intros [] ; simpl; intros; subst; reflexivity. }
  destruct i as [r|id o|c e|]; simpl in S; try discriminate.
  - simplify_eq. destruct r; try discriminate; open_handlers; simpl;
      rewrite ?C, ?Q, ?R, ?I; simpl; apply D; simpl; auto.
  - destruct (parked w !! id) as [t|]; [|discriminate].
    destruct t, o; open_handlers; simpl in S; rewrite ?C in S;
      repeat case_match; simplify_eq; simpl; apply D; simpl; auto.
  - case_decide; [|discriminate]. simplify_eq.
    destruct e; try discriminate; simpl; apply D; simpl; auto.
Qed.

Lemma window_run_idle (ins : list input) (w w' : world) :
  glob w = idle → Forall (λ j, window_turn j = true) ins →
  run w ins = Some w' → glob w' = idle.
Proof.
  revert w. induction ins as [|i ins IH]; simpl; intros w G F R.
  - congruence.
  - destruct (step w i) as [w1|] eqn:S; [|discriminate].
    inversion F as [|? ? Ki F']; subst.
    eapply IH; [eapply window_turn_idle; eauto | exact F' | exact R].
Qed.

(** C7, as the code has it. A restart with a client present calls [destroy]
    and waits for it.  In the turn in which a restart answers (the request
    itself when there was no client, else the settling of [destroy], either
    way) the answer is HTTP 200 with status success and a timer is armed;
    the four variables are then reset, and they stay so through every
    sequence of later turns that contains no run of [initializeClient] (a
    timer expiry or a start request) and no qr or ready event from a client
    constructed earlier: there the status endpoint reports not_ready with
    isReady, isInitializing, hasQR and hasClient all false. *)
Theorem restart_window :
  (∀ (w : world) (c : nat),
     client (glob w) = CObj c →
     ∃ w1, step w (Request PostRestart) = Some w1 ∧
           parked w1 !! fresh w = Some RestartAwaitDestroy ∧
           glob w1 = glob w ∧ out w1 = out w) ∧
  (∀ (w : world) (i : input) (id : nat),
     reachable w → restart_responds w i id →
     ∃ w1, step w i = Some w1 ∧
           out w1 = out w ++
             [(id, json "success"
                     "WhatsApp client restarting. Check /api/qr in a few seconds")] ∧
           timers w1 = S (timers w) ∧
           ∀ (ins : list input) (w2 : world),
             Forall (λ j, window_turn j = true) ins →
             run w1 ins = Some w2 →
             glob w2 = idle ∧
             step w2 (Request GetStatus) =
               Some (respond (fresh w2)
                       (Response 200 "not_ready" "WhatsApp is not connected"
                          (StatusData false false false false))
                       (activate w2))).
Proof.
  split.
  - intros w c C. eexists. split; [reflexivity|].
    simpl. unfold api_restart. simpl. rewrite C. simpl.
    repeat split. apply lookup_insert_eq.
  - intros w i id Rw Hi.
    assert (W : ∀ w1, glob w1 = idle →
              ∀ ins w2, Forall (λ j, window_turn j = true) ins →
              run w1 ins = Some w2 →
              glob w2 = idle ∧
              step w2 (Request GetStatus) =
                Some (respond (fresh w2)
                        (Response 200 "not_ready" "WhatsApp is not connected"
                           (StatusData false false false false))
                        (activate w2))).
    { intros w1 G1 ins w2 F R.
      pose proof (window_run_idle _ _ _ G1 F R) as G2. split; [exact G2|].
      simpl. unfold api_status, statusResponse. simpl. rewrite G2.
      reflexivity. }
    destruct Hi as [(-> & T & ->) | (o & -> & P)].
    + destruct (reachable_inv w Rw) as [U _].
      assert (C : client (glob w) = CNull)
        by (destruct (client (glob w)); simpl in T; congruence).
      eexists. split; [reflexivity|]. simpl. unfold api_restart. simpl.
      rewrite C. simpl. split; [reflexivity|]. split; [reflexivity|].
      intros ins w2 F R. eapply W; [|exact F|exact R].
      simpl. rewrite C. reflexivity.
    + simpl. rewrite P. simpl. eexists. split; [reflexivity|].
      split; [destruct o; reflexivity|]. split; [destruct o; reflexivity|].
      intros ins w2 F R. eapply W; [|exact F|exact R].
      destruct o; reflexivity.
Qed.

(** Right after start-up a restart is issued and [destroy] fails; then a
    status read, a send, a logout, a disconnected event of the old client
    and a second restart request fall into the window. *)
Lemma restart_window_witness :
  let w := default boot (run boot [Request PostRestart]) in
  let w1 := default boot (step w (Settle 0 (Rejected "Target closed"))) in
  let window := [Request GetStatus;
                 Request (PostSendMessage (JStr "081111") (JStr "hi"));
                 Request PostLogout; Emit 0 (EvDisconnected "NAVIGATION");
                 Request PostRestart] in
  let w2 := default boot (run w1 window) in
  step w (Settle 0 (Rejected "Target closed")) = Some w1 ∧
  out w1 = out w ++
    [(0, json "success"
           "WhatsApp client restarting. Check /api/qr in a few seconds")] ∧
  timers w1 = S (timers w) ∧
  run w1 window = Some w2 ∧
  glob w2 = idle ∧
  step w2 (Request GetStatus) =
    Some (respond (fresh w2)
            (Response 200 "not_ready" "WhatsApp is not connected"
               (StatusData false false false false))
            (activate w2)).
Proof.
  intros w w1 window w2.
  assert (E1 : step w (Settle 0 (Rejected "Target closed")) = Some w1)
    by (vm_compute; reflexivity).
  assert (E2 : run w1 window = Some w2) by (vm_compute; reflexivity).
  destruct restart_window as [_ H].
  destruct (H w (Settle 0 (Rejected "Target closed")) 0) as (x & S & O & T & W).
  - exists [Request PostRestart]. vm_compute. reflexivity.
  - right. eexists. split; [reflexivity | vm_compute; reflexivity].
  - rewrite E1 in S. injection S as <-.
    split; [exact E1|]. split; [exact O|]. split; [exact T|].
    split; [exact E2|]. apply (W window w2); [repeat constructor | exact E2].
Defined.

(** The claim C7 inside the settling delay (the timer of the restart is
    still pending in both worlds).  First: [destroy] fails, the old client
    goes on and emits a qr event; the status endpoint then reports hasQR
    true.  Second: a start request follows the restart; the status endpoint
    then reports isInitializing true and hasClient true. *)
Lemma restart_window_disturbed :
  (∃ w, run boot [Request PostRestart; Settle 0 (Rejected "Target closed");
                  Emit 0 (EvQr "2@kq7")] = Some w ∧
        timers w = 1 ∧
        step w (Request GetStatus) =
          Some (respond (fresh w)
                  (Response 200 "not_ready" "WhatsApp is not connected"
                     (StatusData false false true false))
                  (activate w))) ∧
  (∃ w, run boot [Request PostRestart; Settle 0 (Resolved VUndefined);
                  Request PostStart] = Some w ∧
        timers w = 1 ∧
        step w (Request GetStatus) =
          Some (respond (fresh w)
                  (Response 200 "initializing" "WhatsApp is initializing..."
                     (StatusData false true false true))
                  (activate w))).
Proof.
  split; eexists; (split; [vm_compute; reflexivity|]);
    split; vm_compute; reflexivity.
Qed.

(** A turn that reaches none of the assignments leaves the variables
    alone. *)
Lemma calm_turn (w w' : world) (i : input) :
  calm w i = true → step w i = Some w' → glob w' = glob w.
Proof.
  unfold calm. intros K S. apply negb_true_iff in K.
  destruct i as [r|id o|c e|]; simpl in S, K.
  - simplify_eq. destruct r; open_handlers; simpl in *;
      repeat case_match; simpl in *; try discriminate; reflexivity.
  - destruct (parked w !! id) as [t|]; [|discriminate].
    destruct t, o; try discriminate; open_handlers; simpl in S;
      repeat case_match; simplify_eq; reflexivity.
  - case_decide; [|discriminate]. simplify_eq.
    destruct e; try discriminate; reflexivity.
  - destruct (timers w) as [|n]; [discriminate|]. simplify_eq.
    unfold initializeClient. simpl.
    repeat case_match; simpl in *; try discriminate; reflexivity.
Qed.

Lemma calm_run (ins : list input) (w w' : world) :
  run_only calm w ins = Some w' → glob w' = glob w.
Proof.
  revert w. induction ins as [|i ins IH]; simpl; intros w R.
  - congruence.
  - destruct (calm w i) eqn:K; [|discriminate].
    destruct (step w i) as [w1|] eqn:S; [|discriminate].
    rewrite (IH _ R). eapply calm_turn; eauto.
Qed.

(** Only the qr listener stores a code. *)
Lemma no_qr_turn (w w' : world) (i : input) :
  qrCodeData (glob w) = None → no_qr_event i = true →
  step w i = Some w' → qrCodeData (glob w') = None.
Proof.
  intros Q K S.
  destruct i as [r|id o|c e|]; simpl in S.
  - simplify_eq. destruct r; open_handlers; repeat case_match; simpl; auto.
  - destruct (parked w !! id) as [t|]; [|discriminate].
    destruct t, o; open_handlers; simpl in S; repeat case_match;
      simplify_eq; simpl; auto.
  - case_decide; [|discriminate]. simplify_eq.
    destruct e; try discriminate; simpl; auto.
  - destruct (timers w) as [|n]; [discriminate|]. simplify_eq.
    unfold initializeClient. repeat case_match; simpl; auto.
Qed.

Lemma no_qr_run (ins : list input) (w w' : world) :
  qrCodeData (glob w) = None → Forall (λ j, no_qr_event j = true) ins →
  run w ins = Some w' → qrCodeData (glob w') = None.
Proof.
  revert w. induction ins as [|i ins IH]; simpl; intros w Q F R.
  - congruence.
  - destruct (step w i) as [w1|] eqn:S; [|discriminate].
    inversion F as [|? ? Ki F']; subst.
    eapply IH; [eapply no_qr_turn; eauto | exact F' | exact R].
Qed.

(** C5, as the code has it. After a ready event, and through every later
    run of turns without a qr event, the qr endpoint answers with qr null
    (with status ready right after the event).  After a qr event with
    payload [d], and through every later run of turns that reach none of
    the assignments to the session variables, [qrCodeData] holds [d] and the
    status endpoint reports hasQR true (and isInitializing false); the qr
    endpoint returns [d] there when moreover [isReady] was false at the
    event and [d] is not the empty string. *)
Theorem qr_after_events (w w1 w2 : world) (c : nat) (ins : list input) :
  (step w (Emit c EvReady) = Some w1 →
   step w1 (Request GetQr) =
     Some (respond (fresh w1)
             (Response 200 "ready" "WhatsApp already connected" (QrData None))
             (activate w1)) ∧
   (Forall (λ j, no_qr_event j = true) ins →
    run w1 ins = Some w2 →
    ∃ st msg, step w2 (Request GetQr) =
      Some (respond (fresh w2) (Response 200 st msg (QrData None))
              (activate w2)))) ∧
  (∀ d : string,
     step w (Emit c (EvQr d)) = Some w1 →
     run_only calm w1 ins = Some w2 →
     qrCodeData (glob w2) = Some d ∧
     (∃ st msg, step w2 (Request GetStatus) =
        Some (respond (fresh w2)
                (Response 200 st msg
                   (StatusData (isReady (glob w)) false true
                      (cref_not_null (client (glob w)))))
                (activate w2))) ∧
     (isReady (glob w) = false → d ≠ EmptyString →
      step w2 (Request GetQr) =
        Some (respond (fresh w2)
                (Response 200 "success" "Scan QR code with WhatsApp"
                   (QrData (Some d)))
                (activate w2)))).
Proof.
  split.
  - intros S. simpl in S. case_decide; [|discriminate]. simplify_eq.
    split; [reflexivity|]. intros F R.
    apply no_qr_run in R; [|reflexivity|exact F].
    simpl. unfold api_qr. simpl. rewrite R. simpl.
    rewrite andb_true_r.
    destruct (isReady (glob w2)), (isInitializing (glob w2));
      do 2 eexists; reflexivity.
  - intros d S R. apply calm_run in R.
    simpl in S. case_decide; [|discriminate]. simplify_eq.
    simpl in R. split; [rewrite R; reflexivity|]. split.
    + do 2 eexists. simpl. unfold api_status, statusResponse. simpl.
      rewrite R. simpl. reflexivity.
    + intros NR ND. simpl. unfold api_qr. simpl. rewrite R. simpl.
      rewrite NR. destruct d; [congruence | reflexivity].
Qed.

(** A ready event at start-up, then a disconnection and a restart carried
    through to the construction of a second client; and a qr event at
    start-up, then two reads and a logout request (which only calls
    [logout] and waits). *)
Lemma qr_after_events_witness :
  let r1 := default boot (step boot (Emit 0 EvReady)) in
  let later := [Emit 0 (EvDisconnected "NAVIGATION"); Request PostRestart;
                Settle 2 (Resolved VUndefined); Timeout] in
  let r2 := default boot (run r1 later) in
  let q1 := default boot (step boot (Emit 0 (EvQr "2@kq7"))) in
  let reads := [Request GetStatus; Request GetQr; Request PostLogout] in
  let q2 := default boot (run_only calm q1 reads) in
  step r1 (Request GetQr) =
    Some (respond (fresh r1)
            (Response 200 "ready" "WhatsApp already connected" (QrData None))
            (activate r1)) ∧
  (∃ st msg, step r2 (Request GetQr) =
     Some (respond (fresh r2) (Response 200 st msg (QrData None))
             (activate r2))) ∧
  qrCodeData (glob q2) = Some "2@kq7" ∧
  (∃ st msg, step q2 (Request GetStatus) =
     Some (respond (fresh q2)
             (Response 200 st msg (StatusData false false true true))
             (activate q2))) ∧
  step q2 (Request GetQr) =
    Some (respond (fresh q2)
            (Response 200 "success" "Scan QR code with WhatsApp"
               (QrData (Some "2@kq7")))
            (activate q2)).
Proof.
  intros r1 later r2 q1 reads q2.
  assert (R1 : step boot (Emit 0 EvReady) = Some r1)
    by (vm_compute; reflexivity).
  assert (R2 : run r1 later = Some r2) by (vm_compute; reflexivity).
  assert (Q1 : step boot (Emit 0 (EvQr "2@kq7")) = Some q1)
    by (vm_compute; reflexivity).
  assert (Q2 : run_only calm q1 reads = Some q2) by (vm_compute; reflexivity).
  destruct (proj1 (qr_after_events boot r1 r2 0 later) R1) as [A B].
  split; [exact A|]. split.
  - apply B; [repeat constructor | exact R2].
  - destruct (proj2 (qr_after_events boot q1 q2 0 reads) "2@kq7" Q1 Q2)
      as (C & D & E).
    split; [exact C|]. split; [exact D|].
    apply E; [reflexivity | discriminate].
Defined.

(** The claim C5 after a qr event with no lifecycle event after it.  First: a
    restart follows and completes; hasQR is then false and the qr endpoint
    has nothing to return.  Second: the qr event arrives while [isReady] is
    true; the code is stored, yet the qr endpoint answers qr null. *)
Lemma qr_not_kept :
  (∃ w, run boot [Emit 0 (EvQr "2@kq7"); Request PostRestart;
                  Settle 1 (Resolved VUndefined)] = Some w ∧
        step w (Request GetStatus) =
          Some (respond (fresh w)
                  (Response 200 "not_ready" "WhatsApp is not connected"
                     (StatusData false false false false))
                  (activate w)) ∧
        step w (Request GetQr) =
          Some (respond (fresh w)
                  (Response 200 "waiting"
                     "Waiting for QR code. Try /api/start or /api/restart"
                     (QrData None))
                  (activate w))) ∧
  (∃ w, run boot [Emit 0 EvReady; Emit 0 (EvQr "2@kq7")] = Some w ∧
        qrCodeData (glob w) = Some "2@kq7" ∧
        step w (Request GetQr) =
          Some (respond (fresh w)
                  (Response 200 "ready" "WhatsApp already connected"
                     (QrData None))
                  (activate w))).
Proof.
  split; eexists; (split; [vm_compute; reflexivity|]);
    split; vm_compute; reflexivity.
Qed.

(** C10. The qr listener stores the code and clears [isInitializing].  In
    every world the process can reach from start-up in which a code is
    stored and [isReady] is false, [isInitializing] is false and the status
    endpoint reports status not_ready with isInitializing false (and hasQR
    true). *)
Theorem qr_pending_not_initializing :
  (∀ (w w' : world) (c : nat) (d : string),
     step w (Emit c (EvQr d)) = Some w' →
     qrCodeData (glob w') = Some d ∧ isInitializing (glob w') = false) ∧
  (∀ w : world,
     reachable w → qrCodeData (glob w) ≠ None → isReady (glob w) = false →
     isInitializing (glob w) = false ∧
     step w (Request GetStatus) =
       Some (respond (fresh w)
               (Response 200 "not_ready" "WhatsApp is not connected"
                  (StatusData false false true
                     (cref_not_null (client (glob w)))))
               (activate w))).
Proof.
  split.
  - intros w w' c d S. simpl in S. case_decide; [|discriminate].
    simplify_eq. split; reflexivity.
  - intros w Rw Q NR. destruct (reachable_inv w Rw) as [_ I].
    specialize (I Q). split; [exact I|].
    simpl. unfold api_status, statusResponse. simpl. rewrite NR, I.
    destruct (qrCodeData (glob w)); [reflexivity | congruence].
Qed.

Lemma qr_pending_not_initializing_witness :
  let w := default boot (run boot [Emit 0 (EvQr "2@kq7")]) in
  isInitializing (glob boot) = true ∧
  isInitializing (glob w) = false ∧
  step w (Request GetStatus) =
    Some (respond (fresh w)
            (Response 200 "not_ready" "WhatsApp is not connected"
               (StatusData false false true true))
            (activate w)).
Proof.
  intros w. split; [reflexivity|].
  apply (proj2 qr_pending_not_initializing w).
  - exists [Emit 0 (EvQr "2@kq7")]. vm_compute. reflexivity.
  - discriminate.
  - reflexivity.
Defined.

End Reads.

(** * Further properties of the handlers *)

(** ** Spellings of a phone number *)

Section Spellings.

Lemma formatPhone_country (d : string) :
  strip_non_digits d = d → formatPhone ("62" +:+ d) = "62" +:+ d.
Proof.
  intros Hd. change ("62" +:+ d) with (String "6" (String "2" d)).
  unfold formatPhone, startsWith.
  cbn [strip_non_digits is_digit nat_of_ascii andb Nat.leb].
  change (is_digit "6") with true. change (is_digit "2") with true.
  cbv iota. rewrite Hd. destruct d; reflexivity.
Qed.

Lemma formatPhone_trunk (d : string) :
  strip_non_digits d = d → formatPhone ("0" +:+ d) = "62" +:+ d.
Proof.
  intros Hd. change ("0" +:+ d) with (String "0" d).
  unfold formatPhone, startsWith.
  cbn [strip_non_digits]. change (is_digit "0") with true.
  cbv iota. rewrite Hd. destruct d; reflexivity.
Qed.

(** X1. Formatting looks at the digits only, and the trunk spelling, the
    country-code spelling and the bare spelling of the same digits give the
    same result: for digits [d], a leading 0 is replaced by 62, a leading 62
    is kept, and 62 is prepended when [d] starts with neither. *)
Theorem phone_spellings (x d : string) :
  formatPhone x = formatPhone (strip_non_digits x) ∧
  (strip_non_digits d = d →
   formatPhone ("0" +:+ d) = "62" +:+ d ∧
   formatPhone ("62" +:+ d) = "62" +:+ d ∧
   formatPhone ("+62 " +:+ d) = "62" +:+ d ∧
   (String.prefix "0" d = false → String.prefix "62" d = false →
    formatPhone d = "62" +:+ d)).
Proof.
  assert (S : ∀ y, formatPhone y = formatPhone (strip_non_digits y)).
  { intros y. unfold formatPhone. rewrite strip_non_digits_idem.
    reflexivity. }
  split; [apply S|].
  intros Hd. split; [apply formatPhone_trunk, Hd|].
  split; [apply formatPhone_country, Hd|]. split.
  - rewrite (S ("+62 " +:+ d)).
    change (strip_non_digits ("+62 " +:+ d))
      with (strip_non_digits ("62" +:+ d)).
    rewrite <- S. apply formatPhone_country, Hd.
  - intros H0 H62. unfold formatPhone, startsWith.
    rewrite Hd, H0, H62. reflexivity.
Qed.

Lemma phone_spellings_witness :
  formatPhone "081234567890" = "6281234567890" ∧
  formatPhone "6281234567890" = "6281234567890" ∧
  formatPhone "+62 81234567890" = "6281234567890" ∧
  formatPhone "81234567890" = "6281234567890".
Proof.
  destruct (phone_spellings EmptyString "81234567890") as [_ H].
  destruct (H eq_refl) as (A & B & C & D).
  split; [exact A|]. split; [exact B|]. split; [exact C|].
  apply D; reflexivity.
Defined.

End Spellings.

(** ** Answers and suspended handlers *)

Section Activations.

(** The first turn of a handler answers or suspends; it never does both and
    never neither. *)
Lemma handle_effect (r : request) (id : nat) (w : world) :
  fresh (handle r id w) = fresh w ∧
  ((∃ a, out (handle r id w) = out w ++ [(id, a)] ∧
         parked (handle r id w) = parked w) ∨
   (∃ t, out (handle r id w) = out w ∧
         parked (handle r id w) = <[id := t]> (parked w))).
Proof.
  destruct r; open_handlers; repeat case_match; simpl;
    (split; [reflexivity|]);
    first [ left; eexists; split; reflexivity
          | right; eexists; split; reflexivity ].
Qed.

Lemma resume_effect (t : task) (id : nat) (o : outcome) (w w' : world) :
  resume t id o w = Some w' →
  fresh w' = fresh w ∧ turn_effect id w w'.
Proof.
  destruct t; open_handlers; intros H; repeat case_match; simplify_eq;
    simpl; (split; [reflexivity|]);
    first [ eapply turn_answers; reflexivity
          | eapply turn_suspends; reflexivity
          | apply turn_silent; reflexivity ].
Qed.

Lemma on_event_effect (e : event) (id : nat) (w : world) :
  fresh (on_event e id w) = fresh w ∧
  out (on_event e id w) = out w ∧
  (parked (on_event e id w) = parked w ∨
   parked (on_event e id w) = <[id := WebhookAwait]> (parked w)).
Proof.
  destruct e; simpl; auto.
Qed.

Lemma initializeClient_effect (w : world) :
  fresh (initializeClient w) = fresh w ∧
  out (initializeClient w) = out w ∧
  parked (initializeClient w) = parked w.
Proof.
  unfold initializeClient. repeat case_match; simpl; auto.
Qed.

Lemma activation_answers (w w' : world) (id : nat) (a : response) :
  activation_inv w → id ∉ (out w).*1 →
  (∀ j, is_Some (parked w' !! j) → is_Some (parked w !! j) ∧ j ≠ id) →
  id < fresh w' → fresh w ≤ fresh w' →
  out w' = out w ++ [(id, a)] →
  activation_inv w'.
Proof.
  intros (N & B & P) Hid Hp Hlt Hle Ho. unfold activation_inv.
  rewrite Ho, fmap_app. simpl. split; [|split].
  - apply NoDup_app. split; [exact N|]. split.
    + intros x Hx Hx'. apply list_elem_of_singleton in Hx'. congruence.
    + apply NoDup_singleton.
  - intros j Hj. apply elem_of_app in Hj as [Hj|Hj].
    + specialize (B j Hj). lia.
    + apply list_elem_of_singleton in Hj. lia.
  - intros j Hj. destruct (Hp j Hj) as [Hj' Hne].
    destruct (P j Hj') as [L NI]. split; [lia|].
    intros E. apply elem_of_app in E as [E|E]; [auto|].
    apply list_elem_of_singleton in E. auto.
Qed.

Lemma activation_keeps (w w' : world) :
  activation_inv w → out w' = out w → fresh w ≤ fresh w' →
  (∀ j, is_Some (parked w' !! j) →
        is_Some (parked w !! j) ∨ (j < fresh w' ∧ j ∉ (out w).*1)) →
  activation_inv w'.
Proof.
  intros (N & B & P) Ho Hle Hp. unfold activation_inv. rewrite Ho.
  split; [exact N|]. split.
  - intros j Hj. specialize (B j Hj). lia.
  - intros j Hj. destruct (Hp j Hj) as [Hj'|[? ?]]; [|auto].
    destruct (P j Hj'). split; [lia|auto].
Qed.

Lemma step_activation (w w' : world) (i : input) :
  activation_inv w → step w i = Some w' → activation_inv w'.
Proof.
  intros I S. pose proof I as (N & B & P).
  destruct i as [r|id o|c e|]; simpl in S.
  - simplify_eq.
    assert (F : fresh w ∉ (out w).*1) by (intros E; apply B in E; lia).
    destruct (handle_effect r (fresh w) (activate w)) as [Hf [(a & Ho & Hp)|(t & Ho & Hp)]];
      simpl in Hf, Ho, Hp.
    + eapply activation_answers; eauto; try (rewrite Hf; lia).
      intros j Hj. rewrite Hp in Hj. split; [exact Hj|].
      intros ->. apply P in Hj. lia.
    + eapply activation_keeps; eauto; try (rewrite Hf; lia).
      intros j Hj. rewrite Hp in Hj.
      destruct (decide (j = fresh w)) as [->|Hne].
      * right. rewrite Hf. split; [lia|exact F].
      * left. rewrite lookup_insert_ne in Hj; auto.
  - destruct (parked w !! id) as [t|] eqn:Pk; [|discriminate].
    destruct (P id) as [Lid Nid]; [rewrite Pk; eauto|].
    apply resume_effect in S as [Hf E]. simpl in Hf.
    destruct E as [a Ho Hp|t' Ho Hp|Ho Hp]; simpl in Ho, Hp.
    + eapply activation_answers; eauto; try lia.
      intros j Hj. rewrite Hp in Hj.
      destruct (decide (j = id)) as [->|Hne].
      * rewrite lookup_delete_eq in Hj. destruct Hj; discriminate.
      * rewrite lookup_delete_ne in Hj; auto.
    + eapply activation_keeps; eauto; try lia.
      intros j Hj. rewrite Hp in Hj. left.
      destruct (decide (j = id)) as [->|Hne]; [rewrite Pk; eauto|].
      rewrite lookup_insert_ne, lookup_delete_ne in Hj; auto.
    + eapply activation_keeps; eauto; try lia.
      intros j Hj. rewrite Hp in Hj. left.
      destruct (decide (j = id)) as [->|Hne].
      * rewrite lookup_delete_eq in Hj. destruct Hj; discriminate.
      * rewrite lookup_delete_ne in Hj; auto.
  - case_decide; [|discriminate]. simplify_eq.
    assert (F : fresh w ∉ (out w).*1) by (intros E; apply B in E; lia).
    destruct (on_event_effect e (fresh w) (activate w)) as (Hf & Ho & Hp);
      simpl in Hf, Ho, Hp.
    eapply activation_keeps; eauto; try (rewrite Hf; lia).
    intros j Hj. destruct Hp as [Hp|Hp]; rewrite Hp in Hj; [left; exact Hj|].
    destruct (decide (j = fresh w)) as [->|Hne].
    + right. rewrite Hf. split; [lia|exact F].
    + left. rewrite lookup_insert_ne in Hj; auto.
  - destruct (timers w) as [|n]; [discriminate|]. simplify_eq.
    destruct (initializeClient_effect (set_timers n w)) as (Hf & Ho & Hp);
      simpl in Hf, Ho, Hp.
    eapply activation_keeps; eauto; try (rewrite Hf; lia).
    intros j Hj. rewrite Hp in Hj. left. exact Hj.
Qed.

Lemma run_activation (ins : list input) (w w' : world) :
  activation_inv w → run w ins = Some w' → activation_inv w'.
Proof.
  revert w. induction ins as [|i ins IH]; simpl; intros w I R.
  - congruence.
  - destruct (step w i) as [w1|] eqn:S; [|discriminate].
    eapply IH; [eapply step_activation; eauto | exact R].
Qed.

Lemma boot_activation : activation_inv boot.
Proof.
  split; [constructor|]. split.
  - intros id H. simpl in H. inversion H.
  - intros id [t H]. simpl in H. rewrite lookup_empty in H. discriminate.
Qed.

(** X2. In every world the process can reach, no activation has two
    answers and a suspended handler has no answer yet; and the first turn of
    every request either sends its answer or suspends the handler under the
    request's activation number. *)
Theorem answered_at_most_once (w : world) :
  reachable w →
  NoDup (out w).*1 ∧
  (∀ id, is_Some (parked w !! id) → id ∉ (out w).*1) ∧
  (∀ r, ∃ w1, step w (Request r) = Some w1 ∧
              (fresh w ∈ (out w1).*1 ∨ is_Some (parked w1 !! fresh w))).
Proof.
  intros [ins R].
  destruct (run_activation ins boot w boot_activation R) as (N & B & P).
  split; [exact N|]. split; [intros id H; apply (P id H)|].
  intros r. eexists. split; [reflexivity|].
  destruct (handle_effect r (fresh w) (activate w))
    as [_ [(a & Ho & _)|(t & _ & Hp)]].
  - left. rewrite Ho, fmap_app. apply elem_of_app. right. simpl. left.
  - right. rewrite Hp, lookup_insert_eq. eauto.
Qed.

(** A send-message is waiting for [isRegisteredUser] while a status read
    has been answered. *)
Lemma answered_at_most_once_witness :
  let w := default boot
             (run boot [Emit 0 EvReady;
                        Request (PostSendMessage (JStr "081111") (JStr "hi"));
                        Request GetStatus]) in
  NoDup (out w).*1 ∧
  (∀ id, is_Some (parked w !! id) → id ∉ (out w).*1) ∧
  (∀ r, ∃ w1, step w (Request r) = Some w1 ∧
              (fresh w ∈ (out w1).*1 ∨ is_Some (parked w1 !! fresh w))).
Proof.
  intros w. apply (answered_at_most_once w).
  exists [Emit 0 EvReady;
          Request (PostSendMessage (JStr "081111") (JStr "hi"));
          Request GetStatus].
  vm_compute. reflexivity.
Defined.

End Activations.

(** ** The handle and the clients constructed *)

Section Handle.

(** A turn keeps the handle, drops it, or (a start request or a timer
    expiry only) replaces it by a new client; a listener or an [await] of a
    send handler does neither of the last two. *)
Lemma step_handle (w w' : world) (i : input) :
  step w i = Some w' →
  (nclients w' = nclients w ∧
   (client (glob w') = client (glob w) ∨ client (glob w') = CNull)) ∨
  (start_or_timer i = true ∧ nclients w' = S (nclients w) ∧
   client (glob w') = CObj (nclients w) ∧
   calls w' = calls w ++ [NewClient (nclients w); Initialize (nclients w)]).
Proof.
  intros S. destruct i as [r|id o|c e|]; simpl in S.
  - simplify_eq. destruct r; open_handlers; repeat case_match; simpl;
      first [ left; split; [reflexivity|];
              first [left; simpl in *; congruence | right; reflexivity]
            | right; repeat split; try reflexivity;
              rewrite <- app_assoc; reflexivity ].
  - destruct (parked w !! id) as [t|]; [|discriminate].
    destruct t; open_handlers; simpl in S; repeat case_match;
      simplify_eq; simpl; left; (split; [reflexivity|]);
      first [left; simpl in *; congruence | right; reflexivity].
  - case_decide; [|discriminate]. simplify_eq.
    destruct e; simpl; left; auto.
  - destruct (timers w) as [|n]; [discriminate|]. simplify_eq.
    unfold initializeClient. repeat case_match; simpl;
      first [ left; split; [reflexivity|];
              first [left; simpl in *; congruence | right; reflexivity]
            | right; repeat split; try reflexivity;
              rewrite <- app_assoc; reflexivity ].
Qed.

Lemma step_handle_inv (w w' : world) (i : input) :
  handle_inv w → step w i = Some w' → handle_inv w'.
Proof.
  unfold handle_inv. intros I S c C.
  destruct (step_handle _ _ _ S) as [[N [K|K]]|(_ & N & K & _)].
  - rewrite N. apply I. congruence.
  - congruence.
  - rewrite N. congruence.
Qed.

Lemma run_handle_inv (ins : list input) (w w' : world) :
  handle_inv w → run w ins = Some w' → handle_inv w'.
Proof.
  revert w. induction ins as [|i ins IH]; simpl; intros w I R.
  - simplify_eq. exact I.
  - destruct (step w i) as [w1|] eqn:S; [|discriminate].
    eapply IH; [eapply step_handle_inv; eauto | exact R].
Qed.

(** Clients are constructed one at a time, and by start requests and timer
    expiries only. *)
Lemma run_constructions (ins : list input) (w w' : world) :
  run w ins = Some w' →
  nclients w ≤ nclients w' ∧
  nclients w' ≤ nclients w + length (List.filter start_or_timer ins).
Proof.
  revert w. induction ins as [|i ins IH]; simpl; intros w R.
  - simplify_eq. lia.
  - destruct (step w i) as [w1|] eqn:S; [|discriminate].
    destruct (IH _ R) as [L U].
    destruct (step_handle _ _ _ S) as [[N _]|(K & N & _)].
    + destruct (start_or_timer i); simpl; lia.
    + rewrite K. simpl. lia.
Qed.

(** X3. In every world the process can reach, the handle (when there is
    one) is the client constructed last, and the hasClient flag of the status
    endpoint is true exactly when a handle is held: [client] is never
    [undefined] once the module has loaded. *)
Theorem handle_is_latest (w : world) :
  reachable w →
  (∀ c, client (glob w) = CObj c → nclients w = S c) ∧
  1 ≤ nclients w ∧
  client (glob w) ≠ CUndefined ∧
  ∃ st msg rd ini hq,
    step w (Request GetStatus) =
      Some (respond (fresh w)
              (Response 200 st msg
                 (StatusData rd ini hq (cref_truthy (client (glob w)))))
              (activate w)).
Proof.
  intros Rw. pose proof Rw as [ins R].
  assert (H : handle_inv w).
  { eapply run_handle_inv; [|exact R]. intros c C. simpl in *. congruence. }
  destruct (reachable_inv w Rw) as [U _].
  split; [exact H|]. split; [|split; [exact U|]].
  - destruct (run_constructions _ _ _ R) as [L _]. simpl in L. lia.
  - do 5 eexists. simpl. unfold api_status, statusResponse.
    assert (E : cref_not_null (client (glob w)) = cref_truthy (client (glob w)))
      by (destruct (client (glob w)); simpl; congruence).
    simpl. rewrite E. reflexivity.
Qed.

(** After a restart, its timer and a logout carried through: two clients
    were constructed and none is held. *)
Lemma handle_is_latest_witness :
  let w := default boot
             (run boot [Request PostRestart; Settle 0 (Resolved VUndefined);
                        Timeout; Request PostLogout;
                        Settle 1 (Resolved VUndefined);
                        Settle 1 (Resolved VUndefined)]) in
  nclients w = 2 ∧ client (glob w) = CNull ∧
  (∀ c, client (glob w) = CObj c → nclients w = S c) ∧
  ∃ st msg rd ini hq,
    step w (Request GetStatus) =
      Some (respond (fresh w)
              (Response 200 st msg (StatusData rd ini hq false))
              (activate w)).
Proof.
  intros w. split; [vm_compute; reflexivity|].
  split; [vm_compute; reflexivity|].
  destruct (handle_is_latest w) as (A & _ & _ & B).
  - exists [Request PostRestart; Settle 0 (Resolved VUndefined);
            Timeout; Request PostLogout;
            Settle 1 (Resolved VUndefined);
            Settle 1 (Resolved VUndefined)].
    vm_compute. reflexivity.
  - split; [exact A | exact B].
Defined.

(** X4. Whatever the turns, the number of clients constructed never goes
    down and grows by at most one per start request or timer expiry: restart
    and logout requests, settled promises and the listeners construct
    nothing. *)
Theorem constructions_bounded (ins : list input) (w w' : world) :
  run w ins = Some w' →
  nclients w ≤ nclients w' ∧
  nclients w' ≤ nclients w + length (List.filter start_or_timer ins) ∧
  (Forall (λ i, start_or_timer i = false) ins →
   nclients w' = nclients w ∧
   (client (glob w') = client (glob w) ∨ client (glob w') = CNull)).
Proof.
  intros R. destruct (run_constructions _ _ _ R) as [L U].
  split; [exact L|]. split; [exact U|].
  clear L U. revert w R. induction ins as [|i ins IH]; simpl; intros w R F.
  - simplify_eq. auto.
  - destruct (step w i) as [w1|] eqn:S; [|discriminate].
    inversion F as [|? ? Ki F']; subst.
    destruct (IH _ R F') as [N K].
    destruct (step_handle _ _ _ S) as [[N1 K1]|(K2 & _)]; [|congruence].
    split; [congruence|].
    destruct K as [K|K]; [|auto]. destruct K1 as [K1|K1]; [left|right];
      congruence.
Qed.

(** Two restarts in a row and a disconnection construct nothing; the one
    timer expiry after them constructs one client. *)
Lemma constructions_bounded_witness :
  let quiet := [Request PostRestart; Settle 0 (Resolved VUndefined);
                Request PostRestart; Emit 0 (EvDisconnected "LOGOUT")] in
  let w := default boot (run boot quiet) in
  let w' := default boot (run w [Timeout; Timeout]) in
  (nclients w = nclients boot ∧
   (client (glob w) = client (glob boot) ∨ client (glob w) = CNull)) ∧
  nclients w ≤ nclients w' ∧ nclients w' ≤ nclients w + 2.
Proof.
  intros quiet w w'.
  assert (R : run boot quiet = Some w) by (vm_compute; reflexivity).
  assert (R' : run w [Timeout; Timeout] = Some w') by (vm_compute; reflexivity).
  split.
  - apply (constructions_bounded quiet boot w R). repeat constructor.
  - destruct (constructions_bounded [Timeout; Timeout] w w' R') as (A & B & _).
    split; [exact A | exact B].
Defined.

End Handle.

(** ** The webhook relay *)

Section Relay.



End Relay.

(** ** The send handlers beyond their guards *)

Section SendPaths.

(** X6. A send-message carried through without another turn in between:
    with the session ready, a client held, a non-empty phone string and a
    truthy message, a truthy answer of [isRegisteredUser] and a sent message
    give HTTP 200 with status success, whose data are the formatted phone
    (digits only, country code first, without the suffix) and the id of the
    message.  The handler makes exactly the two calls [isRegisteredUser] and
    [sendMessage], both on the chat id, passes the message on as received
    and leaves the session variables alone. *)
Theorem send_message_delivers (w : world) (c : nat) (p serialized : string)
    (message : jsval) (isRegistered : extval) :
  isReady (glob w) = true → client (glob w) = CObj c →
  p ≠ EmptyString → truthy message = true →
  extval_truthy isRegistered = true →
  ∃ w', run w [Request (PostSendMessage (JStr p) message);
               Settle (fresh w) (Resolved isRegistered);
               Settle (fresh w) (Resolved (VMessage serialized))] = Some w' ∧
        out w' = out w ++
          [(fresh w, Response 200 "success" "Message sent successfully"
                       (SentData (formatPhone p) serialized))] ∧
        calls w' = calls w ++
          [IsRegisteredUser c (chatIdOf (formatPhone p));
           SendMessage c (chatIdOf (formatPhone p)) (Text message) None] ∧
        glob w' = glob w ∧ logs w' = logs w ∧
        parked w' !! fresh w = None.
Proof.
  intros R C N M T.
  assert (Tp : negb (String.eqb p EmptyString) = true)
    by (destruct p; [congruence | reflexivity]).
  unfold run. simpl step at 1. unfold api_send_message. simpl.
  rewrite R, Tp, M, C. simpl.
  rewrite lookup_insert_eq. simpl. rewrite T, C. simpl.
  rewrite lookup_insert_eq. simpl.
  eexists. split; [reflexivity|]. simpl.
  repeat (split; [try reflexivity|]).
  - rewrite <- app_assoc. reflexivity.
  - rewrite !lookup_delete_eq. reflexivity.
Qed.

Lemma send_message_delivers_witness :
  let w := default boot (step boot (Emit 0 EvReady)) in
  ∃ w', run w [Request (PostSendMessage (JStr "0811-11") (JStr "hi"));
               Settle 1 (Resolved (VBool true));
               Settle 1 (Resolved (VMessage "true_6281111@c.us_3EB0"))]
        = Some w' ∧
        out w' = out w ++
          [(1, Response 200 "success" "Message sent successfully"
                 (SentData "6281111" "true_6281111@c.us_3EB0"))] ∧
        calls w' = calls w ++
          [IsRegisteredUser 0 "6281111@c.us";
           SendMessage 0 "6281111@c.us" (Text (JStr "hi")) None] ∧
        glob w' = glob w ∧ logs w' = logs w ∧ parked w' !! 1 = None.
Proof.
  intros w.
  apply (send_message_delivers w 0 "0811-11" "true_6281111@c.us_3EB0"
           (JStr "hi") (VBool true));
    [reflexivity | reflexivity | discriminate | reflexivity | reflexivity].
Defined.

(** X7. A phone that is truthy but not a string (a JSON number, [true], an
    object or array) passes the presence test of both send handlers and then
    fails at [phone.replace]: with the session ready and the other mandatory
    field truthy, the TypeError is handed to [console.error] under the
    handler's label and the answer is HTTP 500 (not 400) with its message;
    nothing is formatted, called or suspended. *)
Theorem phone_not_a_string (w : world)
    (phone message mediaUrl caption filename : jsval) :
  isReady (glob w) = true → truthy phone = true →
  (∀ s, phone ≠ JStr s) →
  (truthy message = true →
   step w (Request (PostSendMessage phone message)) =
     Some (activate w
             |> console_error "Send message error:"
                  (TypeError "phone.replace is not a function")
             |> respond (fresh w)
                  (Response 500 "error" "phone.replace is not a function"
                     NoData))) ∧
  (truthy mediaUrl = true →
   step w (Request (PostSendMedia phone mediaUrl caption filename)) =
     Some (activate w
             |> console_error "Send media error:"
                  (TypeError "phone.replace is not a function")
             |> respond (fresh w)
                  (Response 500 "error" "phone.replace is not a function"
                     NoData))).
Proof.
  intros R T NS. split; intros M; simpl;
    unfold api_send_message, api_send_media; simpl; rewrite R, T, M; simpl;
    destruct phone; try reflexivity; exfalso; eapply NS; reflexivity.
Qed.

Lemma phone_not_a_string_witness :
  let w := default boot (step boot (Emit 0 EvReady)) in
  step w (Request (PostSendMessage (JNum 81234567890) (JStr "hi"))) =
    Some (activate w
            |> console_error "Send message error:"
                 (TypeError "phone.replace is not a function")
            |> respond 1
                 (Response 500 "error" "phone.replace is not a function"
                    NoData)) ∧
  step w (Request (PostSendMedia (JNum 81234567890) (JStr "http://h/a.png")
                     JUndefined JUndefined)) =
    Some (activate w
            |> console_error "Send media error:"
                 (TypeError "phone.replace is not a function")
            |> respond 1
                 (Response 500 "error" "phone.replace is not a function"
                    NoData)).
Proof.
  intros w.
  destruct (phone_not_a_string w (JNum 81234567890) (JStr "hi")
              (JStr "http://h/a.png") JUndefined JUndefined) as [A B];
    [reflexivity | reflexivity | discriminate |].
  split; [apply A | apply B]; reflexivity.
Defined.

(** X8. Failures of a send-message after its guards.  A rejection of
    [isRegisteredUser] or of [sendMessage] is handed to [console.error] and
    answered with HTTP 500 carrying the rejection's message.  The handler reads
    [client] again at each call and nothing cancels it: when the handle was
    discarded while it waited for [isRegisteredUser] (or was missing although
    [isReady] was set), the call on [client] throws and the answer is
    HTTP 500 with that TypeError's message; no [sendMessage] is issued.  None
    of these turns changes the session variables or writes a console line
    of text. *)
Theorem send_message_failures :
  (∀ (w : world) (id : nat) (f chatId m : string) (message : jsval),
     parked w !! id = Some (SendMessageAwaitRegistered f chatId message) ∨
     parked w !! id = Some (SendMessageAwaitSend f) →
     ∃ w', step w (Settle id (Rejected m)) = Some w' ∧
           out w' = out w ++ [(id, Response 500 "error" m NoData)] ∧
           errors w' = errors w ++ [("Send message error:", Rejection m)] ∧
           logs w' = logs w ∧
           calls w' = calls w ∧ glob w' = glob w ∧ parked w' !! id = None) ∧
  (∀ (w : world) (id : nat) (f chatId : string) (message : jsval)
     (isRegistered : extval),
     parked w !! id = Some (SendMessageAwaitRegistered f chatId message) →
     extval_truthy isRegistered = true →
     cref_truthy (client (glob w)) = false →
     ∃ w', step w (Settle id (Resolved isRegistered)) = Some w' ∧
           out w' = out w ++
             [(id, Response 500 "error"
                     (typeError_read (client (glob w)) "sendMessage") NoData)] ∧
           errors w' = errors w ++
             [("Send message error:",
               TypeError (typeError_read (client (glob w)) "sendMessage"))] ∧
           logs w' = logs w ∧
           calls w' = calls w ∧ glob w' = glob w ∧ parked w' !! id = None) ∧
  (∀ (w : world) (p : string) (message : jsval),
     isReady (glob w) = true → p ≠ EmptyString → truthy message = true →
     cref_truthy (client (glob w)) = false →
     ∃ w', step w (Request (PostSendMessage (JStr p) message)) = Some w' ∧
           out w' = out w ++
             [(fresh w, Response 500 "error"
                          (typeError_read (client (glob w)) "isRegisteredUser")
                          NoData)] ∧
           errors w' = errors w ++
             [("Send message error:",
               TypeError (typeError_read (client (glob w)) "isRegisteredUser"))] ∧
           logs w' = logs w ∧
           calls w' = calls w ∧ glob w' = glob w ∧ parked w' = parked w).
Proof.
  repeat apply conj.
  - intros w id f chatId m message [P|P]; simpl; rewrite P; simpl;
      (eexists; split; [reflexivity|]); simpl;
      repeat (split; [reflexivity|]); apply lookup_delete_eq.
  - intros w id f chatId message v P T C. simpl. rewrite P. simpl.
    rewrite T. simpl.
    destruct (client (glob w)) eqn:E; try discriminate;
      (eexists; split; [reflexivity|]); simpl;
      repeat (split; [reflexivity|]); apply lookup_delete_eq.
  - intros w p message R N M C.
    assert (Tp : negb (String.eqb p EmptyString) = true)
      by (destruct p; [congruence | reflexivity]).
    simpl. unfold api_send_message. simpl. rewrite R, Tp, M. simpl.
    destruct (client (glob w)) eqn:E; try discriminate;
      (eexists; split; [reflexivity|]); simpl; repeat split.
Qed.

(** In [w] a send-message waits for [isRegisteredUser] and a logout has been
    carried through meanwhile.  In [z] a restart has discarded the handle
    although [destroy] failed, and the old client then reports ready. *)
Lemma send_message_failures_witness :
  let w := default boot
             (run boot [Emit 0 EvReady;
                        Request (PostSendMessage (JStr "081111") (JStr "hi"));
                        Request PostLogout; Settle 2 (Resolved VUndefined);
                        Settle 2 (Resolved VUndefined)]) in
  let z := default boot
             (run boot [Request PostRestart; Settle 0 (Rejected "Target closed");
                        Emit 0 EvReady]) in
  (∃ w', step w (Settle 1 (Rejected "Evaluation failed")) = Some w' ∧
         out w' = out w ++
           [(1, Response 500 "error" "Evaluation failed" NoData)] ∧
         errors w' = errors w ++
           [("Send message error:", Rejection "Evaluation failed")] ∧
         logs w' = logs w ∧
         calls w' = calls w ∧ glob w' = glob w ∧ parked w' !! 1 = None) ∧
  (∃ w', step w (Settle 1 (Resolved (VBool true))) = Some w' ∧
         out w' = out w ++
           [(1, Response 500 "error"
                  "Cannot read properties of null (reading 'sendMessage')"
                  NoData)] ∧
         errors w' = errors w ++
           [("Send message error:",
             TypeError "Cannot read properties of null (reading 'sendMessage')")] ∧
         logs w' = logs w ∧
         calls w' = calls w ∧ glob w' = glob w ∧ parked w' !! 1 = None) ∧
  (∃ w', step z (Request (PostSendMessage (JStr "081111") (JStr "hi")))
         = Some w' ∧
         out w' = out z ++
           [(fresh z, Response 500 "error"
                  "Cannot read properties of null (reading 'isRegisteredUser')"
                  NoData)] ∧
         errors w' = errors z ++
           [("Send message error:",
             TypeError
               "Cannot read properties of null (reading 'isRegisteredUser')")] ∧
         logs w' = logs z ∧
         calls w' = calls z ∧ glob w' = glob z ∧ parked w' = parked z).
Proof.
  intros w z. destruct send_message_failures as (A & B & C).
  split; [|split].
  - apply (A w 1 "6281111" "6281111@c.us" "Evaluation failed" (JStr "hi")).
    left. vm_compute. reflexivity.
  - apply (B w 1 "6281111" "6281111@c.us" (JStr "hi") (VBool true));
      [vm_compute; reflexivity | reflexivity | reflexivity].
  - apply (C z "081111" (JStr "hi"));
      [reflexivity | discriminate | reflexivity | reflexivity].
Defined.

(** X15. Send-media does not look at [client] before the fetch: with
    [isReady] set but no handle held, the media is still fetched, and only
    then the call on [client] throws; the TypeError is handed to
    [console.error] and the answer is HTTP 500 with its message, and nothing
    is sent.  (A send-message in the same world fails before any call.) *)
Theorem send_media_without_handle (w : world) (p : string)
    (mediaUrl caption filename : jsval) (media : nat) :
  isReady (glob w) = true → p ≠ EmptyString → truthy mediaUrl = true →
  cref_truthy (client (glob w)) = false →
  ∃ w', run w [Request (PostSendMedia (JStr p) mediaUrl caption filename);
               Settle (fresh w) (Resolved (VMedia media))] = Some w' ∧
        calls w' = calls w ++ [FromUrl mediaUrl (js_or filename (JStr "file"))] ∧
        out w' = out w ++
          [(fresh w, Response 500 "error"
                       (typeError_read (client (glob w)) "sendMessage")
                       NoData)] ∧
        errors w' = errors w ++
          [("Send media error:",
            TypeError (typeError_read (client (glob w)) "sendMessage"))] ∧
        logs w' = logs w ∧
        glob w' = glob w ∧ parked w' !! fresh w = None.
Proof.
  intros R N M C.
  assert (Tp : negb (String.eqb p EmptyString) = true)
    by (destruct p; [congruence | reflexivity]).
  unfold run. simpl step at 1. unfold api_send_media. simpl.
  rewrite R, Tp, M. simpl. rewrite lookup_insert_eq. simpl.
  destruct (client (glob w)) eqn:E; try discriminate;
    (eexists; split; [reflexivity|]); simpl;
    repeat (split; [reflexivity|]); rewrite lookup_delete_eq; reflexivity.
Qed.

(** A restart has discarded the handle although [destroy] failed, and the
    old client then reports ready. *)
Lemma send_media_without_handle_witness :
  let z := default boot
             (run boot [Request PostRestart; Settle 0 (Rejected "Target closed");
                        Emit 0 EvReady]) in
  ∃ w', run z [Request (PostSendMedia (JStr "081111") (JStr "http://h/a.png")
                          JUndefined JUndefined);
               Settle (fresh z) (Resolved (VMedia 0))] = Some w' ∧
        calls w' = calls z ++ [FromUrl (JStr "http://h/a.png") (JStr "file")] ∧
        out w' = out z ++
          [(fresh z, Response 500 "error"
                  "Cannot read properties of null (reading 'sendMessage')"
                  NoData)] ∧
        errors w' = errors z ++
          [("Send media error:",
            TypeError "Cannot read properties of null (reading 'sendMessage')")] ∧
        logs w' = logs z ∧
        glob w' = glob z ∧ parked w' !! fresh z = None.
Proof.
  intros z.
  apply (send_media_without_handle z "081111" (JStr "http://h/a.png")
           JUndefined JUndefined 0);
    [reflexivity | discriminate | reflexivity | reflexivity].
Defined.

End SendPaths.

(** ** Recovering a session *)

Section Recovery.

(** X9. While a handle is held a start request never constructs a client:
    it is answered with status info whatever the flags are.  The listeners
    never discard the handle, so after a disconnected or auth_failure event
    the variables are cleared but the handle is still held, and a start
    request is answered "WhatsApp client already exists" without any call:
    only restart or logout release such a session. *)
Theorem start_with_handle (w : world) (c c' : nat) (e : event) :
  client (glob w) = CObj c →
  (∃ a, step w (Request PostStart) = Some (respond (fresh w) a (activate w)) ∧
        informational a = true) ∧
  (c' < nclients w →
   (∃ w1, step w (Emit c' e) = Some w1 ∧ client (glob w1) = CObj c ∧
          nclients w1 = nclients w ∧ out w1 = out w) ∧
   ((∃ r, e = EvDisconnected r) ∨ (∃ m, e = EvAuthFailure m) →
    ∃ w', run w [Emit c' e; Request PostStart] = Some w' ∧
          glob w' = Globals (CObj c) None false false ∧
          nclients w' = nclients w ∧ calls w' = calls w ∧
          out w' = out w ++
            [(S (fresh w), json "info" "WhatsApp client already exists")])).
Proof.
  intros C. split; [|intros L; split].
  - simpl. unfold api_start. simpl. rewrite C. simpl.
    destruct (isReady (glob w)), (isInitializing (glob w));
      eexists; (split; [reflexivity|]); reflexivity.
  - simpl. case_decide; [|lia]. eexists. split; [reflexivity|].
    destruct e; simpl; rewrite ?C; auto.
  - intros [[r ->]|[m ->]]; simpl; (case_decide; [|lia]);
      unfold api_start; simpl; rewrite C; simpl;
      (eexists; split; [reflexivity|]); simpl; rewrite ?C; auto.
Qed.

Lemma start_with_handle_witness :
  ∃ w', run boot [Emit 0 (EvDisconnected "NAVIGATION"); Request PostStart]
        = Some w' ∧
        glob w' = Globals (CObj 0) None false false ∧
        nclients w' = nclients boot ∧ calls w' = calls boot ∧
        out w' = out boot ++
          [(1, json "info" "WhatsApp client already exists")].
Proof.
  destruct (start_with_handle boot 0 0 (EvDisconnected "NAVIGATION"))
    as (_ & H); [reflexivity|].
  destruct H as [_ H]; [simpl; lia|].
  apply H. left. eexists. reflexivity.
Defined.

(** X10. A restart carried through to the expiry of its timer always ends
    with a new client initializing, whatever the flags were, even during an
    initialization: the old client (if any) gets one [destroy], whose
    outcome does not matter, the answer is success, and the timer's call of
    [initializeClient] constructs and initializes the next client. *)
Theorem restart_reinitializes (w : world) :
  (∀ (c : nat) (o : outcome),
     client (glob w) = CObj c →
     ∃ w', run w [Request PostRestart; Settle (fresh w) o; Timeout] = Some w' ∧
           glob w' = Globals (CObj (nclients w)) None false true ∧
           nclients w' = S (nclients w) ∧ timers w' = timers w ∧
           calls w' = calls w ++
             [Destroy c; SetTimeout 1000; NewClient (nclients w);
              Initialize (nclients w)] ∧
           out w' = out w ++
             [(fresh w, json "success"
                   "WhatsApp client restarting. Check /api/qr in a few seconds")]) ∧
  (cref_truthy (client (glob w)) = false →
   ∃ w', run w [Request PostRestart; Timeout] = Some w' ∧
         glob w' = Globals (CObj (nclients w)) None false true ∧
         nclients w' = S (nclients w) ∧ timers w' = timers w ∧
         calls w' = calls w ++
           [SetTimeout 1000; NewClient (nclients w); Initialize (nclients w)] ∧
         out w' = out w ++
           [(fresh w, json "success"
                 "WhatsApp client restarting. Check /api/qr in a few seconds")]).
Proof.
  split.
  - intros c o C. unfold run. simpl step at 1. unfold api_restart. simpl.
    rewrite C. simpl. rewrite lookup_insert_eq. simpl.
    eexists. split; [reflexivity|]. unfold initializeClient.
    destruct o; simpl; repeat (split; [try reflexivity|]);
      rewrite <- ?app_assoc; reflexivity.
  - intros C. unfold run. simpl step at 1. unfold api_restart. simpl.
    destruct (client (glob w)) eqn:E; try discriminate; simpl;
      (eexists; split; [reflexivity|]); unfold initializeClient; simpl;
      rewrite E; simpl;
      repeat (split; [try reflexivity|]); rewrite <- ?app_assoc; reflexivity.
Qed.

(** At start-up the first client is still initializing; after a logout no
    handle is held. *)
Lemma restart_reinitializes_witness :
  let z := default boot
             (run boot [Request PostLogout; Settle 0 (Resolved VUndefined);
                        Settle 0 (Resolved VUndefined)]) in
  (∃ w', run boot [Request PostRestart; Settle 0 (Rejected "Target closed");
                   Timeout] = Some w' ∧
         glob w' = Globals (CObj 1) None false true ∧
         nclients w' = 2 ∧ timers w' = 0 ∧
         calls w' = calls boot ++
           [Destroy 0; SetTimeout 1000; NewClient 1; Initialize 1] ∧
         out w' = out boot ++
           [(0, json "success"
                  "WhatsApp client restarting. Check /api/qr in a few seconds")]) ∧
  (∃ w', run z [Request PostRestart; Timeout] = Some w' ∧
         glob w' = Globals (CObj 1) None false true ∧
         nclients w' = 2 ∧ timers w' = 0 ∧
         calls w' = calls z ++ [SetTimeout 1000; NewClient 1; Initialize 1] ∧
         out w' = out z ++
           [(1, json "success"
                  "WhatsApp client restarting. Check /api/qr in a few seconds")]).
Proof.
  intros z. split.
  - apply (proj1 (restart_reinitializes boot) 0 (Rejected "Target closed")).
    reflexivity.
  - apply (proj2 (restart_reinitializes z)). reflexivity.
Defined.

(** X11. A logout carried through while a handle is held calls [logout] and
    then [destroy] on it and leaves no handle; a start request after it is
    then served: it constructs and initializes a new client and answers
    success. *)
Theorem logout_then_start (w : world) (c : nat) (v1 v2 : extval) :
  client (glob w) = CObj c →
  ∃ w', run w [Request PostLogout; Settle (fresh w) (Resolved v1);
               Settle (fresh w) (Resolved v2); Request PostStart] = Some w' ∧
        glob w' = Globals (CObj (nclients w)) None false true ∧
        nclients w' = S (nclients w) ∧ timers w' = timers w ∧
        calls w' = calls w ++
          [Logout c; Destroy c; NewClient (nclients w);
           Initialize (nclients w)] ∧
        out w' = out w ++
          [(fresh w, json "success"
                "Logged out successfully. Use /api/restart to reconnect");
           (S (fresh w), json "success"
                "WhatsApp client started. Please check /api/qr for QR code")].
Proof.
  intros C. unfold run. simpl step at 1. unfold api_logout. simpl.
  rewrite C. simpl. rewrite lookup_insert_eq. simpl.
  unfold logout_loggedOut. simpl. rewrite C. simpl.
  rewrite lookup_insert_eq. simpl.
  eexists. split; [reflexivity|]. unfold api_start, initializeClient. simpl.
  repeat (split; [try reflexivity|]); rewrite <- ?app_assoc; reflexivity.
Qed.

Lemma logout_then_start_witness :
  ∃ w', run boot [Request PostLogout; Settle 0 (Resolved VUndefined);
                  Settle 0 (Resolved VUndefined); Request PostStart]
        = Some w' ∧
        glob w' = Globals (CObj 1) None false true ∧
        nclients w' = 2 ∧ timers w' = 0 ∧
        calls w' = calls boot ++
          [Logout 0; Destroy 0; NewClient 1; Initialize 1] ∧
        out w' = out boot ++
          [(0, json "success"
                 "Logged out successfully. Use /api/restart to reconnect");
           (1, json "success"
                 "WhatsApp client started. Please check /api/qr for QR code")].
Proof.
  apply (logout_then_start boot 0 VUndefined VUndefined). reflexivity.
Defined.

Lemma run_step (w w1 : world) (i : input) (ins : list input) :
  step w i = Some w1 → run w (i :: ins) = run w1 ins.
Proof. intros S. simpl. rewrite S. reflexivity. Qed.

(** An expiry outside an initialization, and not with a ready client held,
    constructs a client. *)
Lemma timeout_constructs (w : world) (n : nat) :
  timers w = S n → isInitializing (glob w) = false →
  cref_truthy (client (glob w)) && isReady (glob w) = false →
  ∃ w', step w Timeout = Some w' ∧
        glob w' = Globals (CObj (nclients w)) None false true ∧
        nclients w' = S (nclients w) ∧ timers w' = n ∧
        calls w' = calls w ++ [NewClient (nclients w); Initialize (nclients w)].
Proof.
  intros T I K. simpl. rewrite T. eexists. split; [reflexivity|].
  unfold initializeClient. simpl. rewrite I, K. simpl.
  repeat split. rewrite <- app_assoc. reflexivity.
Qed.

(** An expiry during an initialization only uses up the timer. *)
Lemma timeout_guarded (w : world) (n : nat) :
  timers w = S n → isInitializing (glob w) = true →
  ∃ w', step w Timeout = Some w' ∧
        glob w' = glob w ∧ nclients w' = nclients w ∧ timers w' = n ∧
        calls w' = calls w.
Proof.
  intros T I. simpl. rewrite T. eexists. split; [reflexivity|].
  unfold initializeClient. simpl. rewrite I. simpl. repeat split.
Qed.

Lemma qr_event_fields (w : world) (c : nat) (d : string) :
  c < nclients w →
  ∃ w', step w (Emit c (EvQr d)) = Some w' ∧
        glob w' = Globals (client (glob w)) (Some d) (isReady (glob w)) false ∧
        nclients w' = nclients w ∧ timers w' = timers w ∧
        calls w' = calls w ++ [QrTerminal d].
Proof.
  intros L. simpl. case_decide; [|lia].
  eexists. split; [reflexivity|]. simpl. repeat split.
Qed.

(** What a listener other than the message listener leaves behind. *)
Lemma listener_fields (w : world) (c : nat) (e : event) :
  c < nclients w →
  ∃ w', step w (Emit c e) = Some w' ∧
        glob w' =
          match e with
          | EvQr d => Globals (client (glob w)) (Some d) (isReady (glob w)) false
          | EvReady => Globals (client (glob w)) None true false
          | EvAuthenticated =>
              Globals (client (glob w)) None (isReady (glob w))
                (isInitializing (glob w))
          | EvAuthFailure _ | EvDisconnected _ =>
              Globals (client (glob w)) None false false
          | EvMessage _ _ _ => glob w
          end ∧
        nclients w' = nclients w.
Proof.
  intros L. simpl. case_decide; [|lia].
  eexists. split; [reflexivity|]. destruct e; simpl; repeat split.
Qed.

(** Two restart requests, then the two [destroy] promises. *)
Lemma two_restarts (w : world) (c : nat) (o1 o2 : outcome) :
  client (glob w) = CObj c →
  ∃ w4, run w [Request PostRestart; Request PostRestart;
               Settle (fresh w) o1; Settle (S (fresh w)) o2] = Some w4 ∧
        glob w4 = idle ∧ timers w4 = S (S (timers w)) ∧
        nclients w4 = nclients w ∧
        calls w4 = calls w ++
          [Destroy c; Destroy c; SetTimeout 1000; SetTimeout 1000].
Proof.
  intros C.
  pose (w1 := activate w |> call (Destroy c)
                         |> park (fresh w) RestartAwaitDestroy).
  assert (S1 : step w (Request PostRestart) = Some w1).
  { simpl. unfold api_restart. simpl. rewrite C. reflexivity. }
  pose (w2 := activate w1 |> call (Destroy c)
                          |> park (S (fresh w)) RestartAwaitDestroy).
  assert (S2 : step w1 (Request PostRestart) = Some w2).
  { simpl. unfold api_restart. simpl. rewrite C. reflexivity. }
  pose (w3 := restart_resume (fresh w) o1
                (set_parked (delete (fresh w) (parked w2)) w2)).
  assert (S3 : step w2 (Settle (fresh w) o1) = Some w3).
  { simpl. rewrite lookup_insert_ne by lia. rewrite lookup_insert_eq.
    reflexivity. }
  pose (w4 := restart_resume (S (fresh w)) o2
                (set_parked (delete (S (fresh w)) (parked w3)) w3)).
  assert (S4 : step w3 (Settle (S (fresh w)) o2) = Some w4).
  { assert (P : parked w3 !! S (fresh w) = Some RestartAwaitDestroy).
    { destruct o1; simpl; rewrite lookup_delete_ne by lia;
        apply lookup_insert_eq. }
    simpl. simpl in P. rewrite P. reflexivity. }
  exists w4.
  rewrite (run_step _ _ _ _ S1), (run_step _ _ _ _ S2),
    (run_step _ _ _ _ S3), (run_step _ _ _ _ S4).
  split; [reflexivity|].
  destruct o1, o2; simpl; repeat split; rewrite <- !app_assoc; reflexivity.
Qed.

(** X14. Two restart requests that overlap (the second arrives while the
    first waits for [destroy]) both call [destroy] on the same client, both
    answer success and both arm a timer.  When the two timers expire with no
    event in between, the guard on [isInitializing] makes the second expiry
    a no-op and one client is constructed.  When the new client emits its qr
    event between the two expiries, the second expiry constructs another
    client and replaces the handle; the turn calls no [destroy], so the
    client it replaces stays alive unreferenced. *)
Theorem overlapping_restarts (w : world) (c : nat) (o1 o2 : outcome)
    (d : string) :
  client (glob w) = CObj c →
  let both := [Request PostRestart; Request PostRestart;
               Settle (fresh w) o1; Settle (S (fresh w)) o2] in
  let n := nclients w in
  (∃ w', run w (both ++ [Timeout; Timeout]) = Some w' ∧
         nclients w' = S n ∧ timers w' = timers w ∧
         glob w' = Globals (CObj n) None false true ∧
         calls w' = calls w ++
           [Destroy c; Destroy c; SetTimeout 1000; SetTimeout 1000;
            NewClient n; Initialize n]) ∧
  (∃ w', run w (both ++ [Timeout; Emit n (EvQr d); Timeout]) = Some w' ∧
         nclients w' = S (S n) ∧ timers w' = timers w ∧
         glob w' = Globals (CObj (S n)) None false true ∧
         calls w' = calls w ++
           [Destroy c; Destroy c; SetTimeout 1000; SetTimeout 1000;
            NewClient n; Initialize n; QrTerminal d;
            NewClient (S n); Initialize (S n)]).
Proof.
  intros C both n. subst both n.
  destruct (two_restarts w c o1 o2 C) as (w4 & R4 & G4 & T4 & N4 & C4).
  assert (I4 : isInitializing (glob w4) = false) by (rewrite G4; reflexivity).
  assert (K4 : cref_truthy (client (glob w4)) && isReady (glob w4) = false)
    by (rewrite G4; reflexivity).
  destruct (timeout_constructs w4 _ T4 I4 K4) as (w5 & S5 & G5 & N5 & T5 & C5).
  split.
  - assert (I5 : isInitializing (glob w5) = true) by (rewrite G5; reflexivity).
    destruct (timeout_guarded w5 _ T5 I5) as (w6 & S6 & G6 & N6 & T6 & C6).
    exists w6. rewrite run_app, R4. rewrite (run_step _ _ _ _ S5).
    rewrite (run_step _ _ _ _ S6). split; [reflexivity|].
    rewrite N6, N5, N4, T6, G6, G5, C6, C5, C4, N4, <- app_assoc.
    repeat split.
  - destruct (qr_event_fields w5 (nclients w) d) as (w6 & S6 & G6 & N6 & T6 & C6);
      [lia|].
    assert (I6 : isInitializing (glob w6) = false) by (rewrite G6; reflexivity).
    assert (K6 : cref_truthy (client (glob w6)) && isReady (glob w6) = false)
      by (rewrite G6, G5; reflexivity).
    rewrite T5 in T6.
    destruct (timeout_constructs w6 _ T6 I6 K6) as (w7 & S7 & G7 & N7 & T7 & C7).
    exists w7. rewrite run_app, R4. rewrite (run_step _ _ _ _ S5).
    rewrite (run_step _ _ _ _ S6), (run_step _ _ _ _ S7).
    split; [reflexivity|].
    rewrite N7, N6, N5, N4, T7, G7, C7, C6, C5, C4, N6, N5, N4,
      <- !app_assoc.
    repeat split.
Qed.

Lemma overlapping_restarts_witness :
  let both := [Request PostRestart; Request PostRestart;
               Settle 0 (Resolved VUndefined);
               Settle 1 (Rejected "Target closed")] in
  (∃ w', run boot (both ++ [Timeout; Timeout]) = Some w' ∧
         nclients w' = 2 ∧ timers w' = 0 ∧
         glob w' = Globals (CObj 1) None false true ∧
         calls w' = calls boot ++
           [Destroy 0; Destroy 0; SetTimeout 1000; SetTimeout 1000;
            NewClient 1; Initialize 1]) ∧
  (∃ w', run boot (both ++ [Timeout; Emit 1 (EvQr "2@kq7"); Timeout])
         = Some w' ∧
         nclients w' = 3 ∧ timers w' = 0 ∧
         glob w' = Globals (CObj 2) None false true ∧
         calls w' = calls boot ++
           [Destroy 0; Destroy 0; SetTimeout 1000; SetTimeout 1000;
            NewClient 1; Initialize 1; QrTerminal "2@kq7";
            NewClient 2; Initialize 2]).
Proof.
  intros both.
  apply (overlapping_restarts boot 0 (Resolved VUndefined)
           (Rejected "Target closed") "2@kq7").
  reflexivity.
Defined.

End Recovery.

(** ** The two read endpoints *)

Section ReadsAgree.

(** X12. In every world the process can reach, the qr endpoint and the
    status endpoint tell the same story: the qr endpoint answers ready, or
    initializing, exactly when the status endpoint reports that status, and
    success or waiting exactly when the status endpoint reports not_ready.
    Its qr field is non-null exactly when it answers success, and is then
    the stored code. *)
Theorem read_endpoints_agree (w : world) :
  reachable w →
  ∃ q, step w (Request GetQr) = Some (respond (fresh w) q (activate w)) ∧
       code q = 200 ∧
       (status q = "ready" ↔ status (statusResponse (glob w)) = "ready") ∧
       (status q = "initializing" ↔
        status (statusResponse (glob w)) = "initializing") ∧
       (status q = "success" ∨ status q = "waiting" ↔
        status (statusResponse (glob w)) = "not_ready") ∧
       (status q = "success" ↔ data q ≠ QrData None) ∧
       (status q = "success" → data q = QrData (qrCodeData (glob w))).
Proof.
  intros Rw. destruct (reachable_inv w Rw) as [_ I].
  simpl. unfold api_qr, statusResponse. simpl.
  destruct (isReady (glob w)); simpl.
  - eexists. split; [reflexivity|]. simpl.
    repeat split; try tauto; try discriminate; intros; try congruence.
    destruct H; discriminate.
  - destruct (qrCodeData (glob w)) as [d|] eqn:Q.
    + rewrite I by discriminate. simpl.
      destruct d as [|a d]; simpl;
        (eexists; split; [reflexivity|]); simpl;
        repeat split; try tauto; try discriminate; intros;
        try congruence; auto.
    + simpl. rewrite andb_true_r.
      destruct (isInitializing (glob w)); simpl;
        (eexists; split; [reflexivity|]); simpl;
        repeat split; try tauto; try discriminate; intros;
        try congruence; auto; try (destruct H; discriminate).
Qed.

(** A qr event has arrived for the first client. *)
Lemma read_endpoints_agree_witness :
  let w := default boot (run boot [Emit 0 (EvQr "2@kq7")]) in
  ∃ q, step w (Request GetQr) = Some (respond (fresh w) q (activate w)) ∧
       code q = 200 ∧
       (status q = "success" ∨ status q = "waiting" ↔
        status (statusResponse (glob w)) = "not_ready") ∧
       (status q = "success" ↔ data q ≠ QrData None).
Proof.
  intros w. destruct (read_endpoints_agree w) as (q & S & C & _ & _ & A & B & _).
  - exists [Emit 0 (EvQr "2@kq7")]. vm_compute. reflexivity.
  - exists q. auto.
Defined.

(** X16. Pairing, as the read endpoints show it.  From a world that is not
    ready, a qr event followed by the authenticated event leaves no code
    stored and both flags false: until the ready event arrives the qr
    endpoint answers waiting ("Try /api/start or /api/restart") and the
    status endpoint not_ready with hasQR false.  After the ready event both
    answer ready. *)
Theorem pairing_flow (w : world) (c : nat) (d : string) :
  c < nclients w → isReady (glob w) = false →
  ∃ w2 w3,
    run w [Emit c (EvQr d); Emit c EvAuthenticated] = Some w2 ∧
    step w2 (Emit c EvReady) = Some w3 ∧
    glob w2 = Globals (client (glob w)) None false false ∧
    step w2 (Request GetQr) =
      Some (respond (fresh w2)
              (Response 200 "waiting"
                 "Waiting for QR code. Try /api/start or /api/restart"
                 (QrData None))
              (activate w2)) ∧
    step w2 (Request GetStatus) =
      Some (respond (fresh w2)
              (Response 200 "not_ready" "WhatsApp is not connected"
                 (StatusData false false false
                    (cref_not_null (client (glob w)))))
              (activate w2)) ∧
    glob w3 = Globals (client (glob w)) None true false ∧
    step w3 (Request GetQr) =
      Some (respond (fresh w3)
              (Response 200 "ready" "WhatsApp already connected" (QrData None))
              (activate w3)) ∧
    step w3 (Request GetStatus) =
      Some (respond (fresh w3)
              (Response 200 "ready" "WhatsApp is connected"
                 (StatusData true false false
                    (cref_not_null (client (glob w)))))
              (activate w3)).
Proof.
  intros L R.
  destruct (qr_event_fields w c d L) as (w1 & S1 & G1 & N1 & _).
  destruct (listener_fields w1 c EvAuthenticated) as (w2 & S2 & G2 & N2);
    [lia|].
  destruct (listener_fields w2 c EvReady) as (w3 & S3 & G3 & N3); [lia|].
  simpl in G2, G3. rewrite G1 in G2. simpl in G2. rewrite R in G2.
  rewrite G2 in G3. simpl in G3.
  exists w2, w3. rewrite (run_step _ _ _ _ S1), (run_step _ _ _ _ S2).
  split; [reflexivity|]. split; [exact S3|]. split; [exact G2|].
  assert (Q : ∀ x, step x (Request GetQr) = Some (api_qr (fresh x) (activate x)))
    by reflexivity.
  assert (T : ∀ x, step x (Request GetStatus) =
                   Some (respond (fresh x) (statusResponse (glob x)) (activate x)))
    by reflexivity.
  rewrite !Q, !T. unfold api_qr.
  change (glob (activate w2)) with (glob w2).
  change (glob (activate w3)) with (glob w3).
  rewrite G2, G3. repeat split.
Qed.

Lemma pairing_flow_witness :
  ∃ w2 w3,
    run boot [Emit 0 (EvQr "2@kq7"); Emit 0 EvAuthenticated] = Some w2 ∧
    step w2 (Emit 0 EvReady) = Some w3 ∧
    glob w2 = Globals (CObj 0) None false false ∧
    step w2 (Request GetQr) =
      Some (respond (fresh w2)
              (Response 200 "waiting"
                 "Waiting for QR code. Try /api/start or /api/restart"
                 (QrData None))
              (activate w2)) ∧
    step w2 (Request GetStatus) =
      Some (respond (fresh w2)
              (Response 200 "not_ready" "WhatsApp is not connected"
                 (StatusData false false false true))
              (activate w2)) ∧
    glob w3 = Globals (CObj 0) None true false ∧
    step w3 (Request GetQr) =
      Some (respond (fresh w3)
              (Response 200 "ready" "WhatsApp already connected" (QrData None))
              (activate w3)) ∧
    step w3 (Request GetStatus) =
      Some (respond (fresh w3)
              (Response 200 "ready" "WhatsApp is connected"
                 (StatusData true false false true))
              (activate w3)).
Proof.
  apply (pairing_flow boot 0 "2@kq7"); [simpl; lia | reflexivity].
Defined.

End ReadsAgree.

(** ** Restart timers *)

Section Timers.

Lemma step_timers (w w' : world) (i : input) :
  step w i = Some w' →
  ∃ l, out w' = out w ++ l ∧
       timers w' + (if is_timeout i then 1 else 0) =
       timers w + length (List.filter restart_answer l).
Proof.
  intros S. destruct i as [r|id o|c e|]; simpl in S; cbn [is_timeout].
  - simplify_eq. destruct r; open_handlers; unfold statusResponse;
      repeat case_match; simpl;
      first [ exists []; rewrite app_nil_r; split; [reflexivity|simpl; lia]
            | eexists [_]; split; [reflexivity|simpl; lia] ].
  - destruct (parked w !! id) as [t|]; [|discriminate].
    destruct t; open_handlers; simpl in S; repeat case_match;
      simplify_eq; simpl;
      first [ exists []; rewrite app_nil_r; split; [reflexivity|simpl; lia]
            | eexists [_]; split; [reflexivity|simpl; lia] ].
  - case_decide; [|discriminate]. simplify_eq.
    destruct e; simpl; exists []; rewrite app_nil_r;
      (split; [reflexivity|simpl; lia]).
  - destruct (timers w) as [|n]; [discriminate|]. simplify_eq.
    unfold initializeClient. repeat case_match; simpl;
      exists []; rewrite app_nil_r; (split; [reflexivity|simpl; lia]).
Qed.

(** X13. Timers are armed by restart answers and by nothing else: along any
    run, the timers pending at the end plus the timers that expired equal
    the timers pending at the beginning plus the restart answers sent.  So
    every answered restart calls [initializeClient] once, later, also when
    several restarts overlap. *)
Theorem timers_account (ins : list input) (w w' : world) :
  run w ins = Some w' →
  ∃ l, out w' = out w ++ l ∧
       timers w' + length (List.filter is_timeout ins) =
       timers w + length (List.filter restart_answer l).
Proof.
  revert w. induction ins as [|i ins IH]; simpl; intros w R.
  - simplify_eq. exists []. rewrite app_nil_r. simpl. split; [reflexivity|lia].
  - destruct (step w i) as [w1|] eqn:S; [|discriminate].
    destruct (step_timers _ _ _ S) as (l1 & O1 & T1).
    destruct (IH _ R) as (l & O & T).
    exists (l1 ++ l). split; [rewrite O, O1, app_assoc; reflexivity|].
    rewrite List.filter_app, length_app.
    destruct (is_timeout i); simpl in *; lia.
Qed.

(** Two overlapping restarts, one expiry so far. *)
Lemma timers_account_witness :
  let ins := [Request PostRestart; Request PostRestart;
              Settle 0 (Resolved VUndefined); Settle 1 (Rejected "Target closed");
              Timeout; Request GetStatus] in
  let w' := default boot (run boot ins) in
  timers w' = 1 ∧
  ∃ l, out w' = out boot ++ l ∧
       timers w' + 1 = timers boot + length (List.filter restart_answer l).
Proof.
  intros ins w'. split; [vm_compute; reflexivity|].
  apply (timers_account ins boot w'). vm_compute. reflexivity.
Defined.

End Timers.
